(** * f1-data-dashboard: the figure builders of [app.py]

    A shallow embedding of [create_figure], [create_scatterplot] and
    [create_speed_graph].  Telemetry channels are IEEE binary64 values
    (numpy's float64), modelled by Rocq's primitive floats; Python
    exceptions are an explicit [Raised] outcome.  The numpy, pandas,
    matplotlib (3.x) and seaborn (0.12, 0.13) calls made by [app.py] are
    modelled by what these libraries compute for the arguments [app.py]
    passes; each definition quotes the call or the library code it
    follows. *)

From Stdlib Require Import String Ascii.
From Stdlib Require Import NArith ZArith List Bool Lia Permutation.
From Stdlib Require Import Floats.
Import ListNotations.

Local Open Scope Z_scope.

(* ================================================================= *)
(** ** Python outcomes *)

(** The exceptions the modelled calls can raise.  All are [ValueError]s;
    the payload records which check raised it. *)
Inductive value_error : Type :=
| inhomogeneous_shape            (* np.array on rows of unequal length *)
| concatenate_dimension_mismatch (* np.concatenate *)
| minvalue_gt_maxvalue           (* Normalize.__call__ *)
| palette_missing_keys (missing : list string). (* seaborn, dict palette *)

Inductive exn : Type :=
| ValueError (what : value_error)
| DataError (msg : string).      (* raised by the fastf1 session loader *)

Inductive outcome (A : Type) : Type :=
| Returned (a : A)
| Raised (e : exn).
Arguments Returned {A} a.
Arguments Raised {A} e.

Definition bind {A B} (c : outcome A) (k : A -> outcome B) : outcome B :=
  match c with
  | Returned a => k a
  | Raised e => Raised e
  end.

Notation "x <- c ;; k" := (bind c (fun x => k))
  (at level 61, c at next level, right associativity).

Definition raises {A} (c : outcome A) : bool :=
  match c with Returned _ => false | Raised _ => true end.

(* ================================================================= *)
(** ** float64 helpers *)

Module f64.

(** [int64 -> float64], as [astype(float)] does it (exact below 2^53;
    the argument is below 2^63 in absolute value). *)
Definition of_Z (z : Z) : float :=
  match z with
  | Z0 => PrimFloat.zero
  | Zpos _ => PrimFloat.of_uint63 (Uint63.of_Z z)
  | Zneg p => PrimFloat.opp (PrimFloat.of_uint63 (Uint63.of_Z (Zpos p)))
  end.

(** [float64 -> int], rounding toward zero, as [astype(int)] does it for
    finite values: the float is [(-1)^s * m * 2^e]. *)
Definition trunc (f : float) : Z :=
  match Prim2SF f with
  | S754_finite s m e =>
      let a := Z.shiftl (Zpos m) e in if s then - a else a
  | _ => 0
  end.

Definition ceil (f : float) : Z :=
  let t := trunc f in
  if PrimFloat.ltb (of_Z t) f then t + 1 else t.

End f64.

(* ================================================================= *)
(** ** numpy *)

Module np.

(** [np.arange(start, stop)] on Python ints. *)
Definition arange_int (start stop : Z) : list Z :=
  map (fun i => start + Z.of_nat i) (seq 0 (Z.to_nat (stop - start))).

(** [np.arange(start, stop)] on floats, step [1.0]: [ceil(stop - start)]
    values [start + i * delta], where [delta = (start + 1.0) - start]. *)
Definition arange_float (start stop : float) : list float :=
  let len := Z.to_nat (f64.ceil (PrimFloat.sub stop start)) in
  let delta := PrimFloat.sub (PrimFloat.add start PrimFloat.one) start in
  map (fun i => PrimFloat.add start
                  (PrimFloat.mul (f64.of_Z (Z.of_nat i)) delta))
      (seq 0 len).

(** [np.array([x, y]).T]: an (N, 2) array, one row [[x_i; y_i]] per
    sample.  Rows of unequal length make [np.array] raise. *)
Definition array_T (x y : list float) : outcome (list (list float)) :=
  if Nat.eqb (length x) (length y)
  then Returned (map (fun p => [fst p; snd p]) (combine x y))
  else Raised (ValueError inhomogeneous_shape).

(** [a.reshape(-1, 1, 2)] of an (N, 2) array: every row becomes a
    (1, 2) block. *)
Definition reshape_m1_1_2 (a : list (list float))
  : list (list (list float)) :=
  map (fun row => [row]) a.

(** [a[:-1]] and [a[1:]] along the first axis. *)
Definition slice_to_m1 {A} (a : list A) : list A :=
  firstn (length a - 1)%nat a.

Definition slice_from_1 {A} (a : list A) : list A := skipn 1 a.

(** [np.concatenate([a, b], axis=1)]: blockwise append; the first axes
    must agree. *)
Definition concatenate_axis1 {A} (a b : list (list A))
  : outcome (list (list A)) :=
  if Nat.eqb (length a) (length b)
  then Returned (map (fun p => fst p ++ snd p) (combine a b))
  else Raised (ValueError concatenate_dimension_mismatch).

End np.

(* ================================================================= *)
(** ** Segment construction ([app.py] lines 29-33 and 124-125) *)

(** [points = np.array([x, y]).T.reshape(-1, 1, 2)] *)
Definition make_points (x y : list float)
  : outcome (list (list (list float))) :=
  xy <- np.array_T x y ;;
  Returned (np.reshape_m1_1_2 xy).

(** [segments = np.concatenate([points[:-1], points[1:]], axis=1)] *)
Definition make_segments (x y : list float)
  : outcome (list (list (list float))) :=
  points <- make_points x y ;;
  np.concatenate_axis1 (np.slice_to_m1 points) (np.slice_from_1 points).

(* ================================================================= *)
(** ** pandas *)

Module pd.

(** numpy's [minimum] / [maximum] inner loop on float64:
    [io1 = (io1 <= in2 || isnan(io1)) ? io1 : in2] and its mirror. *)
Definition minimum (io1 in2 : float) : float :=
  if PrimFloat.leb io1 in2 || PrimFloat.is_nan io1 then io1 else in2.

Definition maximum (io1 in2 : float) : float :=
  if PrimFloat.leb in2 io1 || PrimFloat.is_nan io1 then io1 else in2.

Definition reduce (op : float -> float -> float) (values : list float)
  : float :=
  match values with
  | [] => PrimFloat.nan
  | v :: rest => fold_left op rest v
  end.

(** [Series.min()] with the default [skipna=True]: missing values are
    replaced by [+inf] before the reduction, and a series with no valid
    value (empty, or all NaN) yields NaN. *)
Definition Series_min (values : list float) : float :=
  if forallb PrimFloat.is_nan values then PrimFloat.nan
  else reduce minimum
         (map (fun v => if PrimFloat.is_nan v then PrimFloat.infinity
                        else v) values).

(** [Series.max()], likewise with [-inf]. *)
Definition Series_max (values : list float) : float :=
  if forallb PrimFloat.is_nan values then PrimFloat.nan
  else reduce maximum
         (map (fun v => if PrimFloat.is_nan v then PrimFloat.neg_infinity
                        else v) values).

(** [Series.unique()]: the distinct values in order of first appearance
    (a hash table of the values already seen). *)
Fixpoint unique_from (seen : list string) (values : list string)
  : list string :=
  match values with
  | [] => []
  | v :: rest =>
      if existsb (String.eqb v) seen then unique_from seen rest
      else v :: unique_from (v :: seen) rest
  end.

Definition unique (values : list string) : list string :=
  unique_from [] values.

End pd.

(* ================================================================= *)
(** ** matplotlib *)

Module mpl.

(** [matplotlib.colors.Normalize(vmin, vmax)], [clip=False]. *)
Record Normalize : Type := { vmin : float; vmax : float }.

(** [Normalize.__call__] on an array:
    [if vmin == vmax: result.fill(0)
     elif vmin > vmax: raise ValueError(...)
     else: resdat -= vmin; resdat /= (vmax - vmin)]. *)
Definition Normalize_call (norm : Normalize) (value : list float)
  : outcome (list float) :=
  if PrimFloat.eqb (vmin norm) (vmax norm)
  then Returned (map (fun _ => PrimFloat.zero) value)
  else if PrimFloat.ltb (vmax norm) (vmin norm)
  then Raised (ValueError minvalue_gt_maxvalue)
  else Returned
         (map (fun v => PrimFloat.div (PrimFloat.sub v (vmin norm))
                          (PrimFloat.sub (vmax norm) (vmin norm)))
              value).

(** A colormap is a lookup table of [N] colours followed by the under,
    over and bad colours; a colour is named by its place in the table. *)
Record Colormap : Type := { name : string; N : Z }.

Inductive lut_entry : Type :=
| entry (i : Z)
| under
| over
| bad.

Definition Paired : Colormap := {| name := "Paired"; N := 12 |}.
Definition plasma : Colormap := {| name := "plasma"; N := 256 |}.

(** [Colormap.__call__] on one float of the normalized array:
    [xa *= N; xa[xa == N] = N - 1], then the under / over / bad masks,
    then [astype(int)]. *)
Definition Colormap_call (cmap : Colormap) (x : float) : lut_entry :=
  let n := f64.of_Z (N cmap) in
  let xa := PrimFloat.mul x n in
  let xa := if PrimFloat.eqb xa n then f64.of_Z (N cmap - 1) else xa in
  if PrimFloat.ltb xa PrimFloat.zero then under
  else if PrimFloat.leb n xa then over
  else if PrimFloat.is_nan xa then bad
  else entry (f64.trunc xa).


(** [LineCollection(segments, norm=..., cmap=...)] after [set_array]
    and [set_linewidth].  [array] is the argument of [set_array]; the
    mask it gets there is put on in [segment_colors]. *)
Record LineCollection : Type := {
  segments : list (list (list float));
  norm : Normalize;
  cmap : Colormap;
  array : list float;
  linewidth : float
}.

(** [ScalarMappable.to_rgba(array)] on an array without mask:
    [cmap(norm(array))]. *)
Definition to_rgba (norm : Normalize) (cmap : Colormap)
    (array : list float) : outcome (list lut_entry) :=
  x <- Normalize_call norm array ;;
  Returned (map (Colormap_call cmap) x).

(** Drawing a collection takes, for path [i], item [i mod len] of each
    per-item property. *)
Definition cycled {A} (items : list A) (paths : nat) : list (option A) :=
  map (fun i => nth_error items (i mod List.length items)%nat)
      (seq 0 paths).

(** The array value whose mapped colour segment [i] is drawn in. *)
Definition segment_scalars (lc : LineCollection) : list (option float) :=
  cycled (array lc) (List.length (segments lc)).

(** [cbook.safe_masked_invalid(A)], which [set_array] applies to the
    array it stores: the values that are not finite (NaN, +inf, -inf)
    are masked.  An item is a value and its mask bit. *)
Definition safe_masked_invalid (A : list float) : list (float * bool) :=
  map (fun v => (v, negb (PrimFloat.is_finite v))) A.

(** [np.ma.is_masked(X)]: some item of [X] is masked. *)
Definition is_masked (X : list (float * bool)) : bool := existsb snd X.

(** [Normalize.__call__] on a masked array: the data are normalized as
    by [Normalize_call], under the mask too, and the mask is kept
    ([result.fill(0)] and [np.ma.array(resdat, mask=result.mask)]). *)
Definition Normalize_call_masked (norm : Normalize)
    (value : list (float * bool)) : outcome (list (float * bool)) :=
  resdat <- Normalize_call norm (map fst value) ;;
  Returned (combine resdat (map snd value)).

(** [Colormap.__call__] on one item of an array that has masked items,
    where [mask_bad = X.mask]: the under and over masks are taken before
    the cast, the bad colour is assigned last, and the cast of a NaN
    that no mask covers is clipped to entry 0 by
    [lut.take(xa, axis=0, mode='clip')]. *)
Definition Colormap_call_item (cmap : Colormap) (x : float) (masked : bool)
  : lut_entry :=
  let n := f64.of_Z (N cmap) in
  let xa := PrimFloat.mul x n in
  let xa := if PrimFloat.eqb xa n then f64.of_Z (N cmap - 1) else xa in
  if masked then bad
  else if PrimFloat.ltb xa PrimFloat.zero then under
  else if PrimFloat.leb n xa then over
  else if PrimFloat.is_nan xa then entry 0
  else entry (f64.trunc xa).

(** [Colormap.__call__] on a masked array:
    [mask_bad = X.mask if np.ma.is_masked(X) else np.isnan(xa)]. *)
Definition Colormap_call_masked (cmap : Colormap) (X : list (float * bool))
  : list lut_entry :=
  if is_masked X
  then map (fun item => Colormap_call_item cmap (fst item) (snd item)) X
  else map (fun item => Colormap_call cmap (fst item)) X.

(** [ScalarMappable.to_rgba] on the stored masked array. *)
Definition to_rgba_masked (norm : Normalize) (cmap : Colormap)
    (A : list (float * bool)) : outcome (list lut_entry) :=
  x <- Normalize_call_masked norm A ;;
  Returned (Colormap_call_masked cmap x).

(** The colours the segments are drawn in: [update_scalarmappable] maps
    the array stored by [set_array]. *)
Definition segment_colors (lc : LineCollection)
  : outcome (list (option lut_entry)) :=
  colors <- to_rgba_masked (norm lc) (cmap lc)
              (safe_masked_invalid (array lc)) ;;
  Returned (cycled colors (List.length (segments lc))).

(** [plt.colorbar(mappable, label=..., boundaries=...)] followed by
    [set_ticks] and [set_ticklabels]. *)
Record Colorbar : Type := {
  mappable_norm : Normalize;
  mappable_cmap : Colormap;
  label : string;
  boundaries : list Z;
  ticks : list float;
  ticklabels : list Z
}.



(** The lower bound of every bucket. *)
Definition bucket_levels (cbar : Colorbar) : list Z :=
  np.slice_to_m1 (boundaries cbar).

End mpl.

(* ================================================================= *)
(** ** seaborn *)

Module sns.

(** A dict palette, in insertion order: hue level, colour. *)
Definition palette_dict : Type := list (string * string).

Fixpoint dict_get (d : palette_dict) (key : string) : option string :=
  match d with
  | [] => None
  | (k, v) :: rest => if String.eqb k key then Some v else dict_get rest key
  end.

Definition dict_has (d : palette_dict) (key : string) : bool :=
  match dict_get d key with Some _ => true | None => false end.

Inductive color : Type :=
| named (c : string)
| transparent.                 (* the tuple (0, 0, 0, 0) *)

(** One marker of the scatter collection. *)
Record point : Type := {
  x : Z;
  y : Z;
  hue : string;
  facecolor : color
}.

Record Axes : Type := {
  collection : list point;
  legend : list (string * color)
}.

(** [categorical_order(vector)] on a string column. *)
Definition categorical_order (vector : list string) : list string :=
  pd.unique vector.

(** Python truth value of a [str]. *)
Definition truthy (s : string) : bool := negb (String.eqb s "").

(** [HueMapping._lookup_single(key)] of a categorical mapping (no norm):
    [try: lookup_table[key]  except KeyError: return (0, 0, 0, 0)]. *)
Definition lookup_single (lookup_table : palette_dict) (key : string)
  : color :=
  match dict_get lookup_table key with
  | Some c => named c
  | None => transparent
  end.

(** [sns.scatterplot(data, x, y, hue, palette=<dict>, legend='auto')]
    on rows that hold a value in every cell.  [HueMapping] computes
    [levels = categorical_order(hue)] and
    [missing = set(levels) - set(palette)], and raises
    [ValueError("The palette dictionary is missing keys: ...")]
    [if any(missing)], that is, when some missing level is a true
    (non-empty) string; otherwise every marker takes the colour looked
    up for its hue, and the legend gets one entry per level, in the
    order of [levels].  The error carries the missing levels. *)
Definition scatterplot (data : list (Z * Z * string))
    (palette : palette_dict) : outcome Axes :=
  let levels := categorical_order (map snd data) in
  let missing := filter (fun l => negb (dict_has palette l)) levels in
  if existsb truthy missing
  then Raised (ValueError (palette_missing_keys missing))
  else Returned {|
    collection :=
      map (fun r => {| x := fst (fst r); y := snd (fst r); hue := snd r;
                       facecolor := lookup_single palette (snd r) |})
          data;
    legend := map (fun l => (l, lookup_single palette l)) levels
  |}.

(** The markers a legend entry stands for: those of its hue level, in
    drawing order. *)
Definition series (ax : Axes) (level : string) : list point :=
  filter (fun pt => String.eqb (hue pt) level) (collection ax).

End sns.

(* ================================================================= *)
(** ** base64 *)

Module base64.

Definition alphabet : list ascii :=
  list_ascii_of_string
    "ABCDEFGHIJKLMNOPQRSTUVWXYZabcdefghijklmnopqrstuvwxyz0123456789+/".

Definition pad : ascii := "="%char.

Definition digit (n : N) : ascii := nth (N.to_nat n) alphabet pad.

(** [base64.b64encode(s)]: every three bytes give four digits; a final
    group of one or two bytes is padded with [=]. *)
Fixpoint b64encode (s : list Byte.byte) : list ascii :=
  match s with
  | [] => []
  | [a] =>
      let a := Byte.to_N a in
      [digit (a / 4); digit ((a mod 4) * 16); pad; pad]
  | [a; b] =>
      let a := Byte.to_N a in
      let b := Byte.to_N b in
      [digit (a / 4); digit ((a mod 4) * 16 + b / 16);
       digit ((b mod 16) * 4); pad]
  | a :: b :: c :: rest =>
      let a := Byte.to_N a in
      let b := Byte.to_N b in
      let c := Byte.to_N c in
      digit (a / 4) :: digit ((a mod 4) * 16 + b / 16)
        :: digit ((b mod 16) * 4 + c / 64) :: digit (c mod 64)
        :: b64encode rest
  end%N.

(** The value of a base64 digit. *)
Fixpoint index_from (n : N) (table : list ascii) (c : ascii) : option N :=
  match table with
  | [] => None
  | d :: rest => if Ascii.eqb d c then Some n
                 else index_from (n + 1)%N rest c
  end.

Definition value (c : ascii) : option N := index_from 0%N alphabet c.

Definition byte_of (n : N) : list Byte.byte :=
  match Byte.of_N n with Some b => [b] | None => [] end.

(** A strict decoder (the [validate=True] reading of RFC 4648): digits
    in groups of four, padding only in the last group, and the unused
    low bits of a padded group zero. *)
Fixpoint b64decode (s : list ascii) : option (list Byte.byte) :=
  match s with
  | [] => Some []
  | c1 :: c2 :: c3 :: c4 :: rest =>
      match value c1, value c2 with
      | Some n1, Some n2 =>
          let b1 := (n1 * 4 + n2 / 16)%N in
          if Ascii.eqb c4 pad then
            match rest with
            | [] =>
                if Ascii.eqb c3 pad
                then if (n2 mod 16 =? 0)%N then Some (byte_of b1) else None
                else match value c3 with
                     | Some n3 =>
                         if (n3 mod 4 =? 0)%N
                         then Some (byte_of b1
                                    ++ byte_of ((n2 mod 16) * 16 + n3 / 4)%N)
                         else None
                     | None => None
                     end
            | _ :: _ => None
            end
          else
            match value c3, value c4, b64decode rest with
            | Some n3, Some n4, Some tail =>
                Some (byte_of b1 ++ byte_of ((n2 mod 16) * 16 + n3 / 4)%N
                      ++ byte_of ((n3 mod 4) * 64 + n4)%N ++ tail)
            | _, _, _ => None
            end
      | _, _ => None
      end
  | _ => None
  end.

(** Valid base64 text: the strict decoder accepts it. *)
Definition is_valid (s : list ascii) : bool :=
  match b64decode s with Some _ => true | None => false end.

End base64.

(* ================================================================= *)
(** ** The data fastf1 hands to [app.py] *)

(** One row of a lap's telemetry frame. *)
Record TelemetryRow : Type := {
  X : float;
  Y : float;
  nGear : Z;          (* an int64 column *)
  Speed : float
}.

Record Lap : Type := {
  Driver : string;
  telemetry : list TelemetryRow
}.

(** One row of [pick_quicklaps().reset_index()]; [LapTime] is a Timedelta
    (nanoseconds). *)
Record LapRow : Type := {
  LapNumber : Z;
  LapTime : Z;
  Compound : string
}.

Record Event : Type := {
  EventName : string;
  name : string;
  year : string       (* as the f-strings print it *)
}.

(** [fastf1.get_session(2024, 'Suzuka', 'R')] after [load()]. *)
Record Session : Type := {
  event : Event;
  (* session.laps.pick_driver(d).pick_fastest() *)
  pick_fastest : string -> outcome Lap;
  (* race.laps.pick_driver(d).pick_quicklaps().reset_index() *)
  pick_quicklaps : string -> outcome (list LapRow)
}.

(* ================================================================= *)
(** ** [app.py] *)

Local Open Scope string_scope.

Definition COMPOUND_COLORS : sns.palette_dict :=
  [ ("SOFT", "#D32F2F");
    ("MEDIUM", "#FFB300");
    ("HARD", "#757575");
    ("INTERMEDIATE", "#388E3C");
    ("WET", "#1976D2") ].

(** What pyplot holds when [plt.savefig] is reached. *)
Record GearPlot : Type := {
  lc_comp : mpl.LineCollection;
  gear_title : string;
  cbar : mpl.Colorbar
}.

Record ScatterPlot : Type := {
  ax : sns.Axes;
  scatter_title : string
}.

Record SpeedPlot : Type := {
  background : list float * list float;   (* ax.plot(X, Y, color='black') *)
  lc : mpl.LineCollection;
  speed_title : string;
  normlegend : mpl.Normalize;
  legend_cmap : mpl.Colormap
}.

Inductive Figure : Type :=
| gear_figure (p : GearPlot) (colors : list (option mpl.lut_entry))
| scatter_figure (p : ScatterPlot)
| speed_figure (p : SpeedPlot) (colors : list (option mpl.lut_entry)).

(** [create_figure], lines 22-52. *)
Definition gear_plot (session : Session) (selected_driver : string)
  : outcome GearPlot :=
  lap <- pick_fastest session selected_driver ;;
  let telemetry := telemetry lap in
  let x := map X telemetry in
  let y := map Y telemetry in
  segments <- make_segments x y ;;
  let gear := map (fun r => f64.of_Z (nGear r)) telemetry in
  let cmap := mpl.Paired in
  let lc_comp := {|
    mpl.segments := segments;
    mpl.norm := {| mpl.vmin := f64.of_Z 1;
                   mpl.vmax := f64.of_Z (mpl.N cmap + 1) |};
    mpl.cmap := cmap;
    mpl.array := gear;
    mpl.linewidth := 4%float |} in
  let title :=
    "Fastest Lap Gear Shift Visualization" ++ String "010"%char "" ++
    Driver lap ++ " - " ++ EventName (event session) ++ " " ++
    year (event session) in
  Returned {|
    lc_comp := lc_comp;
    gear_title := title;
    cbar := {| mpl.mappable_norm := mpl.norm lc_comp;
               mpl.mappable_cmap := mpl.cmap lc_comp;
               mpl.label := "Gear";
               mpl.boundaries := np.arange_int 1 10;
               mpl.ticks := np.arange_float 1.5%float 9.5%float;
               mpl.ticklabels := np.arange_int 1 9 |}
  |}.

(** [create_scatterplot], lines 71-97. *)
Definition scatter_plot (race : Session) (selected_driver : string)
  : outcome ScatterPlot :=
  driver_laps <- pick_quicklaps race selected_driver ;;
  ax <- sns.scatterplot
          (map (fun r => (LapNumber r, LapTime r, Compound r)) driver_laps)
          COMPOUND_COLORS ;;
  Returned {|
    ax := ax;
    scatter_title :=
      selected_driver ++ " Lap Times in the 2024 Japan GP (Suzuka)"
  |}.

(** [create_speed_graph], lines 109-154. *)
Definition speed_plot (session : Session) (selected_driver : string)
  : outcome SpeedPlot :=
  lap <- pick_fastest session selected_driver ;;
  let x := map X (telemetry lap) in
  let y := map Y (telemetry lap) in
  let color := map Speed (telemetry lap) in
  segments <- make_segments x y ;;
  let norm := {| mpl.vmin := pd.Series_min color;
                 mpl.vmax := pd.Series_max color |} in
  Returned {|
    background := (x, y);
    lc := {| mpl.segments := segments;
             mpl.norm := norm;
             mpl.cmap := mpl.plasma;
             mpl.array := color;
             mpl.linewidth := 5%float |};
    speed_title :=
      name (event session) ++ " 2024 - " ++ selected_driver ++ " - Speed";
    normlegend := {| mpl.vmin := pd.Series_min color;
                     mpl.vmax := pd.Series_max color |};
    legend_cmap := mpl.plasma
  |}.

(** [image_base64 = base64.b64encode(buf.getvalue()).decode('utf-8')]
    and [return f'data:image/png;base64,{image_base64}']. *)
Definition data_uri (png : list Byte.byte) : string :=
  "data:image/png;base64," ++ string_of_list_ascii (base64.b64encode png).

Section Rendering.

(** [plt.savefig(buf, format='png')] followed by [buf.getvalue()]:
    the PNG bytes of a drawn figure; any renderer will do. *)
Variable savefig : Figure -> list Byte.byte.

(** Lines 20-60.  Drawing maps the gear array to the segment colours. *)
Definition create_figure (session : Session) (selected_driver : string)
  : outcome string :=
  p <- gear_plot session selected_driver ;;
  colors <- mpl.segment_colors (lc_comp p) ;;
  Returned (data_uri (savefig (gear_figure p colors))).

(** Lines 69-105. *)
Definition create_scatterplot (session : Session)
    (selected_driver : string) : outcome string :=
  p <- scatter_plot session selected_driver ;;
  Returned (data_uri (savefig (scatter_figure p))).

(** Lines 108-163. *)
Definition create_speed_graph (session : Session)
    (selected_driver : string) : outcome string :=
  p <- speed_plot session selected_driver ;;
  colors <- mpl.segment_colors (lc p) ;;
  Returned (data_uri (savefig (speed_figure p colors))).

End Rendering.

(* ================================================================= *)
(** ** The callback and the layout ([app.py] lines 168-202) *)

Section Callback.

Variable savefig : Figure -> list Byte.byte.

(** [update_figures], lines 198-202: the three builders are called in
    this order and their strings returned as one tuple. *)
Definition update_figures (session : Session) (selected_driver : string)
  : outcome (string * string * string) :=
  image_src <- create_figure savefig session selected_driver ;;
  speed_graph_src <- create_speed_graph savefig session selected_driver ;;
  scatterplot_src <- create_scatterplot savefig session selected_driver ;;
  Returned (image_src, speed_graph_src, scatterplot_src).

(** The [Output] list of [@app.callback], lines 192-197. *)
Definition callback_outputs : list (string * string) :=
  [ ("lap-graph", "src"); ("speed-graph", "src"); ("scatter-plot", "src") ].

(** Dash assigns the items of the returned tuple to the outputs in the
    order in which they are declared. *)
Definition callback (session : Session) (value : string)
  : outcome (list (string * string * string)) :=
  r <- update_figures session value ;;
  Returned (combine callback_outputs [fst (fst r); snd (fst r); snd r]).

End Callback.

Module dcc.

(** [dcc.Dropdown(id=..., options=..., value=...)]. *)
Record Dropdown : Type := {
  id : string;
  options : list (string * string);      (* label, value *)
  value : string
}.

End dcc.

(** Building the layout fails when [drivers[0]] does. *)
Inductive layout_outcome : Type :=
| LayoutBuilt (dropdown : dcc.Dropdown)
| LayoutIndexError.

(** Lines 171 and 179-183:
    [drivers = session.laps['Driver'].unique()],
    [options=[{'label': driver, 'value': driver} for driver in drivers]],
    [value=drivers[0]]. *)
Definition driver_dropdown (laps_Driver : list string) : layout_outcome :=
  let drivers := pd.unique laps_Driver in
  match drivers with
  | [] => LayoutIndexError
  | first :: _ =>
      LayoutBuilt {| dcc.id := "driver-dropdown";
                     dcc.options :=
                       map (fun driver => (driver, driver)) drivers;
                     dcc.value := first |}
  end.

(* ================================================================= *)
(** ** Vocabulary of the statements *)

(** The position at which a value first appears in a column (the length
    of the column when it never does). *)
Fixpoint first_index (v : string) (values : list string) : nat :=
  match values with
  | [] => 0
  | w :: rest => if String.eqb w v then 0 else S (first_index v rest)
  end.

(* ================================================================= *)
(** ** Sample sessions *)

Module Demo.

Definition row (x y : float) (gear : Z) (speed : float) : TelemetryRow :=
  {| X := x; Y := y; nGear := gear; Speed := speed |}.

Definition lap_row (n : Z) (ns : Z) (compound : string) : LapRow :=
  {| LapNumber := n; LapTime := ns; Compound := compound |}.

(** A loaded session that answers for every driver with one fastest
    lap and one list of quick laps. *)
Definition session (t : list TelemetryRow) (laps : list LapRow)
  : Session :=
  {| event := {| EventName := "Japanese Grand Prix";
                 name := "Japanese Grand Prix"; year := "2024" |};
     pick_fastest := fun d => Returned {| Driver := d; telemetry := t |};
     pick_quicklaps := fun _ => Returned laps |}.

Definition three_samples : list TelemetryRow :=
  [ row 0 0 3 (200); row 1.5 2 3 (250); row 4 2.5 4 (275) ]%float.

Definition one_sample : list TelemetryRow := [ row 1.5 0.25 2 120 ]%float.



(** A lap whose speed channel is stuck at [+inf]. *)
Definition infinite_speed : list TelemetryRow :=
  [ row 0 0 3 PrimFloat.infinity; row 1.5 2 3 PrimFloat.infinity;
    row 4 2.5 4 PrimFloat.infinity ]%float.

(** A lap whose second sample has no speed. *)
Definition speed_gap : list TelemetryRow :=
  [ row 0 0 3 200; row 1.5 2 3 PrimFloat.nan; row 4 2.5 4 275 ]%float.

(** 90.1 s, 89.8 s and 91.0 s. *)
Definition three_laps : list LapRow :=
  [ lap_row 1 90100000000 "SOFT";
    lap_row 2 89800000000 "SOFT";
    lap_row 3 91000000000 "MEDIUM" ]%Z.

Definition supersoft_laps : list LapRow :=
  [ lap_row 1 90100000000 "SOFT";
    lap_row 2 89800000000 "SUPERSOFT" ]%Z.

Definition unnamed_compound_laps : list LapRow :=
  [ lap_row 1 90100000000 "SOFT";
    lap_row 2 89800000000 "" ]%Z.

(** A renderer that emits the PNG signature only. *)
Definition png_signature (_ : Figure) : list Byte.byte :=
  [ Byte.x89; Byte.x50; Byte.x4e; Byte.x47;
    Byte.x0d; Byte.x0a; Byte.x1a; Byte.x0a ].

End Demo.

(* ================================================================= *)
(** * Properties *)

Local Open Scope nat_scope.
Local Open Scope list_scope.

(** ** Lists: adjacent pairs *)

Lemma length_slice_to_m1 {A} (a : list A) :
  List.length (np.slice_to_m1 a) = List.length a - 1.
Proof.
  unfold np.slice_to_m1. rewrite length_firstn. lia.
Qed.

Lemma length_slice_from_1 {A} (a : list A) :
  List.length (np.slice_from_1 a) = List.length a - 1.
Proof.
  unfold np.slice_from_1. rewrite length_skipn. lia.
Qed.

Lemma nth_error_slice_to_m1 {A} (a : list A) (i : nat) :
  S i < List.length a ->
  nth_error (np.slice_to_m1 a) i = nth_error a i.
Proof.
  intros Hi. unfold np.slice_to_m1.
  rewrite nth_error_firstn.
  destruct (Nat.ltb_spec i (List.length a - 1)); [reflexivity|lia].
Qed.

Lemma nth_error_slice_from_1 {A} (a : list A) (i : nat) :
  nth_error (np.slice_from_1 a) i = nth_error a (S i).
Proof.
  unfold np.slice_from_1. destruct a as [|h t]; [now destruct i|reflexivity].
Qed.

Lemma nth_error_combine {A B} (l : list A) (l' : list B) (i : nat) a b :
  nth_error l i = Some a -> nth_error l' i = Some b ->
  nth_error (combine l l') i = Some (a, b).
Proof.
  revert l' i. induction l as [|h t IH]; intros [|h' t'] [|i]; simpl;
    try discriminate.
  - now intros [= ->] [= ->].
  - apply IH.
Qed.

Lemma concatenate_adjacent {A} (points : list (list A)) :
  exists segs,
    np.concatenate_axis1 (np.slice_to_m1 points) (np.slice_from_1 points)
      = Returned segs
    /\ List.length segs = List.length points - 1
    /\ forall i p q,
         nth_error points i = Some p -> nth_error points (S i) = Some q ->
         nth_error segs i = Some (p ++ q).
Proof.
  unfold np.concatenate_axis1.
  rewrite length_slice_to_m1, length_slice_from_1, Nat.eqb_refl.
  eexists; split; [reflexivity|]. split.
  - rewrite length_map, length_combine,
      length_slice_to_m1, length_slice_from_1. lia.
  - intros i p q Hp Hq.
    assert (Hlt : S i < List.length points)
      by (apply nth_error_Some; congruence).
    rewrite nth_error_map.
    rewrite (nth_error_combine _ _ i p q); [reflexivity| |].
    + now rewrite nth_error_slice_to_m1.
    + now rewrite nth_error_slice_from_1.
Qed.

(** ** Segment construction on a telemetry frame *)

Lemma make_points_telemetry (t : list TelemetryRow) :
  make_points (map X t) (map Y t)
  = Returned (map (fun r => [[X r; Y r]]) t).
Proof.
  unfold make_points, np.array_T.
  rewrite !length_map, Nat.eqb_refl. simpl.
  unfold np.reshape_m1_1_2. f_equal.
  induction t as [|r t IH]; simpl; [reflexivity|now rewrite IH].
Qed.

Lemma make_segments_telemetry (t : list TelemetryRow) :
  exists segs,
    make_segments (map X t) (map Y t) = Returned segs
    /\ List.length segs = List.length t - 1
    /\ forall i r r',
         nth_error t i = Some r -> nth_error t (S i) = Some r' ->
         nth_error segs i = Some [[X r; Y r]; [X r'; Y r']].
Proof.
  unfold make_segments. rewrite make_points_telemetry. cbn [bind].
  destruct (concatenate_adjacent (map (fun r => [[X r; Y r]]) t))
    as (segs & Heq & Hlen & Hnth).
  exists segs. split; [exact Heq|]. split.
  - now rewrite Hlen, length_map.
  - intros i r r' Hr Hr'.
    apply (Hnth i [[X r; Y r]] [[X r'; Y r']]);
      rewrite nth_error_map; [now rewrite Hr|now rewrite Hr'].
Qed.

Lemma nth_error_cycled {A} (items : list A) (paths i : nat) :
  i < paths -> i < List.length items ->
  nth_error (mpl.cycled items paths) i = Some (nth_error items i).
Proof.
  intros Hp Hi. unfold mpl.cycled.
  rewrite nth_error_map, nth_error_seq.
  destruct (Nat.ltb_spec i paths); [|lia]. simpl.
  now rewrite Nat.mod_small.
Qed.

(** ** C1: segments and their leading sample *)

(** C1.  For a fastest lap of N >= 2 telemetry samples, both path
    figures hold exactly N-1 segments in input order; segment [i] joins
    sample [i] to sample [i+1], and the value that colours it is the
    channel value (gear, speed) of sample [i], the leading endpoint. *)
Theorem segments_follow_leading_sample
    (session : Session) (driver : string) (lap : Lap) :
  pick_fastest session driver = Returned lap ->
  2 <= List.length (telemetry lap) ->
  exists g s,
    gear_plot session driver = Returned g
    /\ speed_plot session driver = Returned s
    /\ List.length (mpl.segments (lc_comp g))
       = List.length (telemetry lap) - 1
    /\ mpl.segments (lc s) = mpl.segments (lc_comp g)
    /\ forall i r r',
         nth_error (telemetry lap) i = Some r ->
         nth_error (telemetry lap) (S i) = Some r' ->
         nth_error (mpl.segments (lc_comp g)) i
           = Some [[X r; Y r]; [X r'; Y r']]
         /\ nth_error (mpl.segment_scalars (lc_comp g)) i
            = Some (Some (f64.of_Z (nGear r)))
         /\ nth_error (mpl.segment_scalars (lc s)) i
            = Some (Some (Speed r)).
Proof.
  intros Hlap HN.
  destruct (make_segments_telemetry (telemetry lap))
    as (segs & Hsegs & Hlen & Hnth).
  unfold gear_plot, speed_plot. rewrite Hlap. cbn [bind].
  rewrite Hsegs. cbn [bind].
  eexists; eexists. split; [reflexivity|]. split; [reflexivity|].
  cbn [lc_comp lc mpl.segments]. split; [exact Hlen|].
  split; [reflexivity|].
  intros i r r' Hr Hr'.
  assert (Hi : S i < List.length (telemetry lap))
    by (apply nth_error_Some; congruence).
  split; [now apply Hnth|].
  unfold mpl.segment_scalars. cbn [mpl.segments mpl.array].
  rewrite !nth_error_cycled, !nth_error_map, Hr by
    (rewrite ?length_map; lia).
  split; reflexivity.
Qed.

Lemma segments_follow_leading_sample_demo :
  exists g s,
    gear_plot (Demo.session Demo.three_samples []) "VER" = Returned g
    /\ speed_plot (Demo.session Demo.three_samples []) "VER" = Returned s
    /\ List.length (mpl.segments (lc_comp g)) = 2
    /\ nth_error (mpl.segment_scalars (lc_comp g)) 1
       = Some (Some (f64.of_Z 3))
    /\ nth_error (mpl.segment_scalars (lc s)) 1 = Some (Some 250%float).
Proof.
  destruct (segments_follow_leading_sample
              (Demo.session Demo.three_samples []) "VER"
              {| Driver := "VER"; telemetry := Demo.three_samples |}
              eq_refl (le_S _ _ (le_n 2)))
    as (g & s & Hg & Hs & Hlen & _ & Hnth).
  exists g, s.
  destruct (Hnth 1 (Demo.row 1.5 2 3 250) (Demo.row 4 2.5 4 275)
              eq_refl eq_refl) as (_ & Hgear & Hspeed).
  repeat split; assumption.
Defined.

(** ** C2: fewer than two samples *)

(** C2, as the code has it.  Fewer than two samples raise nothing:
    segment construction returns the empty segment sequence. *)
Theorem short_input_gives_no_segments (t : list TelemetryRow) :
  List.length t < 2 ->
  make_segments (map X t) (map Y t) = Returned [].
Proof.
  intros Ht.
  destruct (make_segments_telemetry t) as (segs & Heq & Hlen & _).
  rewrite Heq. f_equal.
  destruct segs; [reflexivity|simpl in Hlen; lia].
Qed.

Lemma short_input_gives_no_segments_demo :
  make_segments (map X Demo.one_sample) (map Y Demo.one_sample)
  = Returned [].
Proof.
  apply (short_input_gives_no_segments Demo.one_sample).
  apply le_n.
Defined.

(** C2, as stated, fails: a lap of one sample is not rejected.  No
    error is raised, and the gear figure is built with no segment. *)
Lemma single_sample_is_not_rejected :
  raises (make_segments (map X Demo.one_sample) (map Y Demo.one_sample))
  = false
  /\ raises (make_segments [] []) = false
  /\ option_map (fun g => mpl.segments (lc_comp g))
       (match gear_plot (Demo.session Demo.one_sample []) "VER" with
        | Returned g => Some g
        | Raised _ => None
        end)
     = Some [].
Proof.
  repeat split.
Qed.

(** ** Reductions pick one of their operands *)




Lemma not_nan_of_eqb (a : float) :
  PrimFloat.eqb a a = true -> PrimFloat.is_nan a = false.
Proof. intros H. unfold PrimFloat.is_nan. now rewrite H. Qed.


(** ** Items drawn cyclically come from the item list *)



(** ** The stored array and its mask *)

Ltac sf_cases :=
  repeat match goal with
  | |- context [Pos.compare_cont Eq ?a ?b] =>
      change (Pos.compare_cont Eq a b) with (Pos.compare a b);
      destruct (Pos.compare_spec a b)
  | |- context [Z.compare ?a ?b] => destruct (Z.compare_spec a b)
  | H : context [Pos.compare_cont Eq ?a ?b] |- _ =>
      change (Pos.compare_cont Eq a b) with (Pos.compare a b) in H;
      destruct (Pos.compare_spec a b)
  | H : context [Z.compare ?a ?b] |- _ => destruct (Z.compare_spec a b)
  end; simpl in *; try discriminate; try reflexivity; try lia.



Lemma map_fst_safe_masked_invalid (A : list float) :
  map fst (mpl.safe_masked_invalid A) = A.
Proof.
  unfold mpl.safe_masked_invalid. rewrite map_map. cbn [fst]. apply map_id.
Qed.

Lemma length_Normalize_call (norm : mpl.Normalize) (A data : list float) :
  mpl.Normalize_call norm A = Returned data ->
  List.length data = List.length A.
Proof.
  unfold mpl.Normalize_call.
  destruct (PrimFloat.eqb _ _); [|destruct (PrimFloat.ltb _ _)];
    intros [= <-]; apply length_map.
Qed.

(** The stored array after normalization: the normalized values, each
    with the mask bit of the value it comes from. *)
Lemma Normalize_call_masked_stored (norm : mpl.Normalize)
    (A data : list float) :
  mpl.Normalize_call norm A = Returned data ->
  mpl.Normalize_call_masked norm (mpl.safe_masked_invalid A)
  = Returned (combine data
                (map (fun v => negb (PrimFloat.is_finite v)) A)).
Proof.
  intros H. unfold mpl.Normalize_call_masked.
  rewrite map_fst_safe_masked_invalid, H. cbn [bind].
  unfold mpl.safe_masked_invalid. now rewrite map_map.
Qed.


Lemma map_snd_combine {A B} (l : list A) (l' : list B) :
  List.length l = List.length l' -> map snd (combine l l') = l'.
Proof.
  revert l'. induction l as [|a l IH]; intros [|b l']; simpl;
    try discriminate; [reflexivity|].
  intros [= H]. now rewrite IH.
Qed.

Lemma is_masked_map_snd (X : list (float * bool)) :
  mpl.is_masked X = existsb (fun b => b) (map snd X).
Proof.
  unfold mpl.is_masked. induction X as [|x X IH]; simpl; [reflexivity|].
  now rewrite IH.
Qed.

(** What the stored array is mapped to, item by item. *)
Lemma to_rgba_masked_items (norm : mpl.Normalize) (cmap : mpl.Colormap)
    (A data : list float) :
  mpl.Normalize_call norm A = Returned data ->
  exists colors,
    mpl.to_rgba_masked norm cmap (mpl.safe_masked_invalid A)
      = Returned colors
    /\ List.length colors = List.length A
    /\ forall i v x,
         nth_error A i = Some v ->
         nth_error data i = Some x ->
         nth_error colors i
         = Some (if mpl.is_masked (mpl.safe_masked_invalid A)
                 then mpl.Colormap_call_item cmap x
                        (negb (PrimFloat.is_finite v))
                 else mpl.Colormap_call cmap x).
Proof.
  intros Hnorm. pose proof (length_Normalize_call _ _ _ Hnorm) as Hlen.
  unfold mpl.to_rgba_masked.
  rewrite (Normalize_call_masked_stored _ _ _ Hnorm). cbn [bind].
  set (masks := map (fun v => negb (PrimFloat.is_finite v)) A).
  assert (Hm : mpl.is_masked (combine data masks)
               = mpl.is_masked (mpl.safe_masked_invalid A)).
  { rewrite !is_masked_map_snd. f_equal.
    rewrite map_snd_combine by (unfold masks; now rewrite length_map).
    unfold mpl.safe_masked_invalid. now rewrite map_map. }
  eexists. split; [reflexivity|]. split.
  - unfold mpl.Colormap_call_masked.
    destruct (mpl.is_masked (combine data masks));
      rewrite length_map, length_combine; unfold masks;
      rewrite length_map; lia.
  - intros i v x Hv Hx.
    assert (Hi : nth_error (combine data masks) i
                 = Some (x, negb (PrimFloat.is_finite v))).
    { apply nth_error_combine; [exact Hx|].
      unfold masks. now rewrite nth_error_map, Hv. }
    unfold mpl.Colormap_call_masked. rewrite Hm.
    destruct (mpl.is_masked (mpl.safe_masked_invalid A));
      now rewrite nth_error_map, Hi.
Qed.

Lemma Colormap_call_item_unmasked (cmap : mpl.Colormap) (x : float) :
  mpl.Colormap_call cmap x = mpl.bad
  \/ mpl.Colormap_call_item cmap x false = mpl.Colormap_call cmap x.
Proof.
  unfold mpl.Colormap_call, mpl.Colormap_call_item.
  destruct (PrimFloat.ltb _ _); [now right|].
  destruct (PrimFloat.leb _ _); [now right|].
  destruct (PrimFloat.is_nan _); [now left|now right].
Qed.


(** ** C3: a constant channel in continuous mode *)





(** At a speed stuck at [+inf] the scale is degenerate as well, and the
    segments are drawn in the bad colour. *)
Lemma infinite_speed_is_drawn_in_the_bad_color :
  bind (speed_plot (Demo.session Demo.infinite_speed []) "VER")
       (fun s => mpl.segment_colors (lc s))
  = Returned [Some mpl.bad; Some mpl.bad].
Proof. vm_compute. reflexivity. Qed.


(** ** The gear colour bar *)

(** The mapping and the colour bar of the gear figure do not depend on
    the lap. *)
Lemma gear_plot_mapping (session : Session) (driver : string) (g : GearPlot) :
  gear_plot session driver = Returned g ->
  mpl.norm (lc_comp g)
    = {| mpl.vmin := f64.of_Z 1; mpl.vmax := f64.of_Z 13 |}
  /\ mpl.cmap (lc_comp g) = mpl.Paired
  /\ cbar g
     = {| mpl.mappable_norm :=
            {| mpl.vmin := f64.of_Z 1; mpl.vmax := f64.of_Z 13 |};
          mpl.mappable_cmap := mpl.Paired;
          mpl.label := "Gear";
          mpl.boundaries := np.arange_int 1 10;
          mpl.ticks := np.arange_float 1.5%float 9.5%float;
          mpl.ticklabels := np.arange_int 1 9 |}.
Proof.
  unfold gear_plot. intros H.
  destruct (pick_fastest session driver) as [lap|e]; [|discriminate].
  cbn [bind] in H.
  destruct (make_segments _ _) as [segs|e]; [|discriminate].
  cbn [bind] in H. injection H as <-. repeat split.
Qed.

(** ** C4: a gear on a bucket boundary *)



(** The upper edge 9.0 of the last bucket is drawn in palette entry 8,
    which is the colour of no bucket of the bar. *)
Lemma gear_nine_is_outside_the_bar :
  mpl.to_rgba {| mpl.vmin := f64.of_Z 1; mpl.vmax := f64.of_Z 13 |}
              mpl.Paired [9%float]
  = Returned [mpl.entry 8].
Proof. vm_compute. reflexivity. Qed.

(** ** C5: ticks of the gear colour bar *)

(** C5.  On the colour bar of the gear figure the tick of every bucket
    stands at [level + 0.5] and carries the bucket's integer level as
    its label: positions 1.5 .. 8.5, labels 1 .. 8. *)
Theorem gear_ticks_center_their_bucket
    (session : Session) (driver : string) (g : GearPlot) :
  gear_plot session driver = Returned g ->
  mpl.ticks (cbar g)
    = map (fun level => PrimFloat.add (f64.of_Z level) 0.5%float)
          (mpl.bucket_levels (cbar g))
  /\ mpl.ticklabels (cbar g) = mpl.bucket_levels (cbar g)
  /\ mpl.ticks (cbar g)
     = [1.5; 2.5; 3.5; 4.5; 5.5; 6.5; 7.5; 8.5]%float
  /\ mpl.ticklabels (cbar g) = [1; 2; 3; 4; 5; 6; 7; 8]%Z.
Proof.
  intros Hg. destruct (gear_plot_mapping _ _ _ Hg) as (_ & _ & ->).
  repeat split; vm_compute; reflexivity.
Qed.

Lemma gear_ticks_center_their_bucket_demo :
  exists g,
    gear_plot (Demo.session Demo.three_samples []) "VER" = Returned g
    /\ nth_error (mpl.ticks (cbar g)) 2 = Some 3.5%float
    /\ nth_error (mpl.ticklabels (cbar g)) 2 = Some 3%Z.
Proof.
  eexists. split; [reflexivity|].
  destruct (gear_ticks_center_their_bucket
              (Demo.session Demo.three_samples []) "VER" _ eq_refl)
    as (_ & _ & Ht & Hl).
  rewrite Ht, Hl. split; reflexivity.
Defined.

(** ** C8: the colours are a function of the channel and the palette *)

Lemma segment_colors_ext (lc1 lc2 : mpl.LineCollection) :
  mpl.array lc1 = mpl.array lc2 ->
  mpl.norm lc1 = mpl.norm lc2 ->
  mpl.cmap lc1 = mpl.cmap lc2 ->
  List.length (mpl.segments lc1) = List.length (mpl.segments lc2) ->
  mpl.segment_colors lc1 = mpl.segment_colors lc2.
Proof.
  intros Ha Hn Hc Hl. unfold mpl.segment_colors. now rewrite Ha, Hn, Hc, Hl.
Qed.



(** ** Hue levels: [unique] keeps first appearances *)

Lemma existsb_eqb_In (v : string) (seen : list string) :
  existsb (String.eqb v) seen = true <-> In v seen.
Proof.
  rewrite existsb_exists. split.
  - intros (w & Hw & E). apply String.eqb_eq in E. now subst.
  - intros H. exists v. split; [exact H|apply String.eqb_refl].
Qed.

Lemma unique_from_In (seen values : list string) (c : string) :
  In c (pd.unique_from seen values) <-> In c values /\ ~ In c seen.
Proof.
  revert seen. induction values as [|v rest IH]; intros seen; simpl.
  - tauto.
  - destruct (existsb (String.eqb v) seen) eqn:E.
    + apply existsb_eqb_In in E. rewrite IH. split.
      * intros [H1 H2]. auto.
      * intros [[->|H1] H2]; [contradiction|auto].
    + assert (Hv : ~ In v seen).
      { intros H. apply existsb_eqb_In in H. congruence. }
      simpl. rewrite IH. simpl. split.
      * intros [->|[H1 H2]]; [auto|]. split; [auto|tauto].
      * intros [[->|H1] H2]; [auto|].
        destruct (string_dec v c) as [->|Hne]; [auto|right].
        split; [exact H1|]. intros [H|H]; [contradiction|contradiction].
Qed.

Lemma unique_from_NoDup (seen values : list string) :
  NoDup (pd.unique_from seen values).
Proof.
  revert seen. induction values as [|v rest IH]; intros seen; simpl.
  - constructor.
  - destruct (existsb (String.eqb v) seen); [apply IH|].
    constructor; [|apply IH].
    rewrite unique_from_In. simpl. tauto.
Qed.

Lemma first_index_skip (v c : string) (rest : list string) :
  v <> c -> first_index c (v :: rest) = S (first_index c rest).
Proof.
  intros Hne. simpl. destruct (String.eqb_spec v c); [contradiction|reflexivity].
Qed.

Lemma unique_from_order (seen values : list string) :
  forall i j a b,
    nth_error (pd.unique_from seen values) i = Some a ->
    nth_error (pd.unique_from seen values) j = Some b ->
    i < j ->
    first_index a values < first_index b values.
Proof.
  revert seen. induction values as [|v rest IH]; intros seen i j a b; simpl.
  - now destruct i.
  - destruct (existsb (String.eqb v) seen) eqn:E.
    + intros Ha Hb Hij. apply existsb_eqb_In in E.
      assert (Hna : v <> a).
      { intros ->. apply nth_error_In, unique_from_In in Ha. tauto. }
      assert (Hnb : v <> b).
      { intros ->. apply nth_error_In, unique_from_In in Hb. tauto. }
      destruct (String.eqb_spec v a); [contradiction|].
      destruct (String.eqb_spec v b); [contradiction|].
      apply -> Nat.succ_lt_mono. eapply IH; eauto.
    + intros Ha Hb Hij.
      destruct j as [|j]; [lia|]. simpl in Hb.
      assert (Hnb : v <> b).
      { intros ->. apply nth_error_In, unique_from_In in Hb.
        simpl in Hb. tauto. }
      destruct (String.eqb_spec v b); [contradiction|].
      destruct i as [|i]; simpl in Ha.
      * injection Ha as <-. rewrite String.eqb_refl. lia.
      * assert (Hna : v <> a).
        { intros ->. apply nth_error_In, unique_from_In in Ha.
          simpl in Ha. tauto. }
        destruct (String.eqb_spec v a); [contradiction|].
        apply -> Nat.succ_lt_mono. eapply IH; eauto. lia.
Qed.

(** ** Grouping a list by its keys *)

Lemma filter_split_Permutation {A} (p : A -> bool) (l : list A) :
  Permutation (filter p l ++ filter (fun x => negb (p x)) l) l.
Proof.
  induction l as [|h t IH]; simpl; [constructor|].
  destruct (p h); simpl.
  - now constructor.
  - symmetry. apply Permutation_cons_app. now symmetry.
Qed.

Lemma filter_filter_implied {A} (p q : A -> bool) (l : list A) :
  (forall x, p x = true -> q x = true) ->
  filter p (filter q l) = filter p l.
Proof.
  intros Hpq. induction l as [|h t IH]; simpl; [reflexivity|].
  destruct (q h) eqn:Eq; simpl.
  - now rewrite IH.
  - destruct (p h) eqn:Ep; [|exact IH].
    apply Hpq in Ep. congruence.
Qed.

Lemma group_by_keys_Permutation {A} (key : A -> string)
    (keys : list string) :
  NoDup keys ->
  forall l,
    (forall a, In a l -> In (key a) keys) ->
    Permutation
      (concat (map (fun k => filter (fun a => String.eqb (key a) k) l) keys))
      l.
Proof.
  induction 1 as [|k keys Hk Hnd IH]; intros l Hl; simpl.
  - destruct l as [|a l]; [constructor|]. destruct (Hl a). now left.
  - set (others := filter (fun a => negb (String.eqb (key a) k)) l).
    rewrite (map_ext_in _
               (fun k' => filter (fun a => String.eqb (key a) k') others)).
    + etransitivity; [|apply (filter_split_Permutation
                                (fun a => String.eqb (key a) k))].
      apply Permutation_app_head. apply IH.
      intros a Ha. apply filter_In in Ha. destruct Ha as [Ha Hne].
      destruct (Hl a Ha) as [E|H]; [|exact H].
      subst k. now rewrite String.eqb_refl in Hne.
    + intros k' Hk'. unfold others. symmetry.
      apply filter_filter_implied.
      intros a E. apply String.eqb_eq in E. subst k'.
      destruct (String.eqb_spec (key a) k); [subst; contradiction|reflexivity].
Qed.

(** ** The scatter plot *)

Lemma filter_map_swap {A B} (f : A -> B) (p : B -> bool) (l : list A) :
  filter p (map f l) = map f (filter (fun a => p (f a)) l).
Proof.
  induction l as [|h t IH]; simpl; [reflexivity|].
  destruct (p (f h)); simpl; now rewrite IH.
Qed.

Lemma filter_none {A} (p : A -> bool) (l : list A) :
  (forall a, In a l -> p a = false) -> filter p l = [].
Proof.
  induction l as [|h t IH]; intros H; simpl; [reflexivity|].
  rewrite (H h) by now left. apply IH. intros a Ha. apply H. now right.
Qed.

Lemma scatterplot_Returned (data : list (Z * Z * string))
    (palette : sns.palette_dict) (ax : sns.Axes) :
  sns.scatterplot data palette = Returned ax ->
  sns.collection ax
    = map (fun r => {| sns.x := fst (fst r); sns.y := snd (fst r);
                       sns.hue := snd r;
                       sns.facecolor := sns.lookup_single palette (snd r) |})
          data
  /\ sns.legend ax
     = map (fun l => (l, sns.lookup_single palette l))
           (pd.unique (map snd data)).
Proof.
  unfold sns.scatterplot. destruct (existsb _ _); [discriminate|].
  intros [= <-]. split; reflexivity.
Qed.

Lemma scatterplot_covered (data : list (Z * Z * string))
    (palette : sns.palette_dict) :
  (forall r, In r data -> sns.dict_has palette (snd r) = true) ->
  exists ax, sns.scatterplot data palette = Returned ax.
Proof.
  intros Hcov. unfold sns.scatterplot.
  assert (E : filter (fun l => negb (sns.dict_has palette l))
                (sns.categorical_order (map snd data)) = []).
  { apply filter_none.
    intros l Hl. apply unique_from_In in Hl. destruct Hl as [Hl _].
    apply in_map_iff in Hl. destruct Hl as (r & <- & Hr).
    now rewrite Hcov. }
  rewrite E. simpl. eexists. reflexivity.
Qed.

Lemma scatter_plot_Returned (race : Session) (driver : string)
    (laps : list LapRow) (p : ScatterPlot) :
  pick_quicklaps race driver = Returned laps ->
  scatter_plot race driver = Returned p ->
  map fst (sns.legend (ax p)) = pd.unique (map Compound laps)
  /\ forall c,
       sns.series (ax p) c
       = map (fun r => {| sns.x := LapNumber r; sns.y := LapTime r;
                          sns.hue := Compound r;
                          sns.facecolor :=
                            sns.lookup_single COMPOUND_COLORS (Compound r) |})
             (filter (fun r => String.eqb (Compound r) c) laps).
Proof.
  intros Hlaps. unfold scatter_plot. rewrite Hlaps. cbn [bind].
  destruct (sns.scatterplot _ _) as [axes|e] eqn:E; [|discriminate].
  cbn [bind]. intros [= <-]. cbn [ax].
  apply scatterplot_Returned in E. destruct E as [Hc Hl]. split.
  - rewrite Hl, !map_map. cbn [fst snd]. now rewrite map_id.
  - intros c. unfold sns.series. rewrite Hc, map_map. cbn [fst snd].
    now rewrite filter_map_swap.
Qed.

(** ** C7: the legend follows first appearance *)



(** ** C9: every lap is drawn in exactly one series *)

(** C9.  When every compound of the laps has a colour in
    [COMPOUND_COLORS], the scatter plot is built; the lap numbers of all
    its series together are, as a multiset, the lap numbers of the input
    (no lap dropped or drawn twice); every marker carries the colour of
    its compound; and no series is empty. *)
Theorem every_lap_is_in_exactly_one_series
    (race : Session) (driver : string) (laps : list LapRow) :
  pick_quicklaps race driver = Returned laps ->
  (forall r, In r laps ->
             sns.dict_has COMPOUND_COLORS (Compound r) = true) ->
  exists p,
    scatter_plot race driver = Returned p
    /\ Permutation
         (concat (map (fun e => map sns.x (sns.series (ax p) (fst e)))
                      (sns.legend (ax p))))
         (map LapNumber laps)
    /\ Forall (fun pt => option_map sns.named
                           (sns.dict_get COMPOUND_COLORS (sns.hue pt))
                         = Some (sns.facecolor pt))
              (sns.collection (ax p))
    /\ Forall (fun e => exists pt rest,
                   sns.series (ax p) (fst e) = pt :: rest)
              (sns.legend (ax p)).
Proof.
  intros Hlaps Hcov.
  destruct (scatterplot_covered
              (map (fun r => (LapNumber r, LapTime r, Compound r)) laps)
              COMPOUND_COLORS) as [axes Hax].
  { intros r Hr. apply in_map_iff in Hr. destruct Hr as (r' & <- & Hr').
    now apply Hcov. }
  assert (Hp : scatter_plot race driver
               = Returned {| ax := axes;
                             scatter_title :=
                               (driver ++
                                " Lap Times in the 2024 Japan GP (Suzuka)")%string
                          |}).
  { unfold scatter_plot. now rewrite Hlaps; cbn [bind]; rewrite Hax. }
  eexists. split; [exact Hp|]. cbn [ax].
  destruct (scatter_plot_Returned _ _ _ _ Hlaps Hp) as [Hleg Hser].
  cbn [ax] in Hleg, Hser.
  destruct (scatterplot_Returned _ _ _ Hax) as [Hcoll _].
  split; [|split].
  - rewrite <- (map_map fst (fun k => map sns.x (sns.series axes k))).
    rewrite Hleg.
    rewrite <- (map_map (sns.series axes) (map sns.x)), <- concat_map.
    assert (Hx : map LapNumber laps = map sns.x (sns.collection axes)).
    { rewrite Hcoll, !map_map. reflexivity. }
    rewrite Hx. apply Permutation_map. unfold sns.series.
    apply group_by_keys_Permutation; [apply unique_from_NoDup|].
    intros pt Hpt. apply unique_from_In. split; [|tauto].
    rewrite Hcoll in Hpt. apply in_map_iff in Hpt.
    destruct Hpt as (r & <- & Hr). cbn [sns.hue].
    apply in_map_iff in Hr. destruct Hr as (r' & <- & Hr'). cbn [snd].
    now apply in_map.
  - rewrite Hcoll. apply Forall_forall. intros pt Hpt.
    apply in_map_iff in Hpt. destruct Hpt as (r & <- & Hr).
    cbn [sns.hue sns.facecolor].
    apply in_map_iff in Hr. destruct Hr as (r' & <- & Hr'). cbn [snd].
    specialize (Hcov r' Hr'). unfold sns.dict_has in Hcov.
    unfold sns.lookup_single.
    destruct (sns.dict_get COMPOUND_COLORS (Compound r'));
      [reflexivity|discriminate].
  - apply Forall_forall. intros e He.
    assert (Hin : In (fst e) (map Compound laps)).
    { apply (in_map fst) in He. rewrite Hleg in He.
      now apply unique_from_In in He. }
    apply in_map_iff in Hin. destruct Hin as (r & Hr & Hrl).
    rewrite Hser.
    destruct (filter (fun r0 => String.eqb (Compound r0) (fst e)) laps)
      as [|r0 rest] eqn:Ef.
    + assert (Hf : In r (filter (fun r0 => String.eqb (Compound r0) (fst e))
                            laps)).
      { apply filter_In. split; [exact Hrl|]. rewrite Hr.
        apply String.eqb_refl. }
      rewrite Ef in Hf. destruct Hf.
    + simpl. eexists; eexists; reflexivity.
Qed.

Lemma every_lap_is_in_exactly_one_series_demo :
  exists p,
    scatter_plot (Demo.session [] Demo.three_laps) "VER" = Returned p
    /\ Permutation
         (concat (map (fun e => map sns.x (sns.series (ax p) (fst e)))
                      (sns.legend (ax p))))
         [1; 2; 3]%Z
    /\ List.length (sns.legend (ax p)) = 2.
Proof.
  destruct (every_lap_is_in_exactly_one_series
              (Demo.session [] Demo.three_laps) "VER" Demo.three_laps
              eq_refl) as (p & Hp & Hperm & _ & _).
  - intros r Hr. simpl in Hr.
    destruct Hr as [<-|[<-|[<-|[]]]]; reflexivity.
  - exists p. split; [exact Hp|]. split; [exact Hperm|].
    injection Hp as <-. reflexivity.
Defined.

(** ** C6: a compound without a colour *)

(** The path on which the palette check works: when some lap has a
    compound that is a non-empty string without a colour in
    [COMPOUND_COLORS], the scatter plot raises the palette's
    [ValueError] naming that compound; no axes, no marker colour and no
    image come out of it. *)
Theorem unknown_compound_raises
    (race : Session) (driver : string) (laps : list LapRow) (r : LapRow) :
  pick_quicklaps race driver = Returned laps ->
  In r laps ->
  sns.dict_has COMPOUND_COLORS (Compound r) = false ->
  sns.truthy (Compound r) = true ->
  exists missing,
    In (Compound r) missing
    /\ scatter_plot race driver
       = Raised (ValueError (palette_missing_keys missing))
    /\ forall savefig,
         create_scatterplot savefig race driver
         = Raised (ValueError (palette_missing_keys missing)).
Proof.
  intros Hlaps Hr Hmiss Htruthy.
  set (data := map (fun r => (LapNumber r, LapTime r, Compound r)) laps).
  set (missing := filter (fun l => negb (sns.dict_has COMPOUND_COLORS l))
                    (sns.categorical_order (map snd data))).
  assert (Hin : In (Compound r) missing).
  { apply filter_In. split; [|now rewrite Hmiss].
    apply unique_from_In. split; [|tauto].
    unfold data. rewrite map_map. cbn [snd].
    now apply (in_map Compound). }
  assert (Hplot : scatter_plot race driver
                  = Raised (ValueError (palette_missing_keys missing))).
  { unfold scatter_plot. rewrite Hlaps. cbn [bind].
    unfold sns.scatterplot. fold data. fold missing.
    assert (E : existsb sns.truthy missing = true).
    { apply existsb_exists. eauto. }
    now rewrite E. }
  exists missing. split; [exact Hin|]. split; [exact Hplot|].
  intros savefig. unfold create_scatterplot. now rewrite Hplot.
Qed.

(** A lap on the compound SUPERSOFT. *)
Lemma unknown_compound_raises_demo :
  exists missing,
    In "SUPERSOFT" missing
    /\ scatter_plot (Demo.session [] Demo.supersoft_laps) "VER"
       = Raised (ValueError (palette_missing_keys missing))
    /\ forall savefig,
         create_scatterplot savefig (Demo.session [] Demo.supersoft_laps)
           "VER"
         = Raised (ValueError (palette_missing_keys missing)).
Proof.
  apply (unknown_compound_raises
           (Demo.session [] Demo.supersoft_laps) "VER" Demo.supersoft_laps
           (Demo.lap_row 2 89800000000 "SUPERSOFT") eq_refl).
  - right. left. reflexivity.
  - reflexivity.
  - reflexivity.
Defined.

(** C6 at the failing input.  A lap whose compound is the empty string
    has no colour in [COMPOUND_COLORS], yet nothing is raised: the image
    is returned, with that lap's marker in the transparent colour.  The
    sibling input, a lap on SUPERSOFT, is rejected with the palette's
    [ValueError]. *)
Lemma unnamed_compound_is_drawn_transparent :
  sns.dict_has COMPOUND_COLORS "" = false
  /\ raises (create_scatterplot Demo.png_signature
               (Demo.session [] Demo.unnamed_compound_laps) "VER")
     = false
  /\ bind (scatter_plot (Demo.session [] Demo.unnamed_compound_laps) "VER")
          (fun p => Returned (map sns.facecolor (sns.collection (ax p))))
     = Returned [sns.named "#D32F2F"; sns.transparent]
  /\ create_scatterplot Demo.png_signature
       (Demo.session [] Demo.supersoft_laps) "VER"
     = Raised (ValueError (palette_missing_keys ["SUPERSOFT"])).
Proof.
  repeat split.
Qed.

(** ** base64: what is encoded decodes *)

Ltac div_lia := zify; Z.to_euclidean_division_equations; lia.

Lemma digit_value (n : N) :
  (n < 64)%N ->
  base64.value (base64.digit n) = Some n
  /\ Ascii.eqb (base64.digit n) base64.pad = false.
Proof.
  intros Hn.
  assert (Hall : forallb
                   (fun i => match base64.value (base64.digit (N.of_nat i)) with
                             | Some m => N.eqb m (N.of_nat i)
                             | None => false
                             end
                             && negb (Ascii.eqb (base64.digit (N.of_nat i))
                                        base64.pad))
                   (seq 0 64) = true)
    by (vm_compute; reflexivity).
  rewrite forallb_forall in Hall.
  specialize (Hall (N.to_nat n)). rewrite N2Nat.id in Hall.
  assert (Hin : In (N.to_nat n) (seq 0 64)) by (apply in_seq; lia).
  apply Hall in Hin. apply andb_prop in Hin. destruct Hin as [Hv Hp].
  split.
  - destruct (base64.value (base64.digit n)) as [m|]; [|discriminate].
    apply N.eqb_eq in Hv. now subst.
  - now apply negb_true_iff.
Qed.

Lemma byte_of_to_N (b : Byte.byte) : base64.byte_of (Byte.to_N b) = [b].
Proof. unfold base64.byte_of. now rewrite Byte.of_to_N. Qed.

Lemma list_ind3 {A} (P : list A -> Prop) :
  P [] ->
  (forall a, P [a]) ->
  (forall a b, P [a; b]) ->
  (forall a b c rest, P rest -> P (a :: b :: c :: rest)) ->
  forall l, P l.
Proof.
  intros H0 H1 H2 H3.
  assert (H : forall l, P l /\ (forall a, P (a :: l))
                        /\ (forall a b, P (a :: b :: l))).
  { induction l as [|c rest (IH0 & IH1 & IH2)].
    - auto.
    - repeat split; auto. }
  intros l. apply H.
Qed.

Lemma b64decode_b64encode (s : list Byte.byte) :
  base64.b64decode (base64.b64encode s) = Some s.
Proof.
  induction s as [|a|a b|a b c rest IH] using list_ind3.
  - reflexivity.
  - cbn [base64.b64encode base64.b64decode].
    pose proof (Byte.to_N_bounded a) as Ha.
    destruct (digit_value (Byte.to_N a / 4)) as [-> _]; [div_lia|].
    destruct (digit_value ((Byte.to_N a mod 4) * 16)) as [-> _]; [div_lia|].
    rewrite !Ascii.eqb_refl.
    replace (((Byte.to_N a mod 4) * 16) mod 16 =? 0)%N with true
      by (symmetry; apply N.eqb_eq; div_lia).
    replace (Byte.to_N a / 4 * 4 + (Byte.to_N a mod 4) * 16 / 16)%N
      with (Byte.to_N a) by div_lia.
    now rewrite byte_of_to_N.
  - cbn [base64.b64encode base64.b64decode].
    pose proof (Byte.to_N_bounded a) as Ha.
    pose proof (Byte.to_N_bounded b) as Hb.
    destruct (digit_value (Byte.to_N a / 4)) as [-> _]; [div_lia|].
    destruct (digit_value ((Byte.to_N a mod 4) * 16 + Byte.to_N b / 16))
      as [-> _]; [div_lia|].
    destruct (digit_value ((Byte.to_N b mod 16) * 4)) as [-> ->];
      [div_lia|].
    rewrite !Ascii.eqb_refl.
    replace (((Byte.to_N b mod 16) * 4) mod 4 =? 0)%N with true
      by (symmetry; apply N.eqb_eq; div_lia).
    replace (Byte.to_N a / 4 * 4
             + ((Byte.to_N a mod 4) * 16 + Byte.to_N b / 16) / 16)%N
      with (Byte.to_N a) by div_lia.
    replace ((((Byte.to_N a mod 4) * 16 + Byte.to_N b / 16) mod 16) * 16
             + (Byte.to_N b mod 16) * 4 / 4)%N
      with (Byte.to_N b) by div_lia.
    now rewrite !byte_of_to_N.
  - cbn [base64.b64encode base64.b64decode].
    pose proof (Byte.to_N_bounded a) as Ha.
    pose proof (Byte.to_N_bounded b) as Hb.
    pose proof (Byte.to_N_bounded c) as Hc.
    destruct (digit_value (Byte.to_N a / 4)) as [-> _]; [div_lia|].
    destruct (digit_value ((Byte.to_N a mod 4) * 16 + Byte.to_N b / 16))
      as [-> _]; [div_lia|].
    destruct (digit_value ((Byte.to_N b mod 16) * 4 + Byte.to_N c / 64))
      as [-> _]; [div_lia|].
    destruct (digit_value (Byte.to_N c mod 64)) as [-> ->]; [div_lia|].
    rewrite IH.
    replace (Byte.to_N a / 4 * 4
             + ((Byte.to_N a mod 4) * 16 + Byte.to_N b / 16) / 16)%N
      with (Byte.to_N a) by div_lia.
    replace ((((Byte.to_N a mod 4) * 16 + Byte.to_N b / 16) mod 16) * 16
             + ((Byte.to_N b mod 16) * 4 + Byte.to_N c / 64) / 4)%N
      with (Byte.to_N b) by div_lia.
    replace ((((Byte.to_N b mod 16) * 4 + Byte.to_N c / 64) mod 4) * 64
             + Byte.to_N c mod 64)%N
      with (Byte.to_N c) by div_lia.
    now rewrite !byte_of_to_N.
Qed.

(** ** C10: the returned string *)

Lemma prefix_append (p rest : string) :
  String.prefix p (p ++ rest)%string = true.
Proof.
  induction p as [|a p IH]; simpl.
  - now destruct rest.
  - destruct (ascii_dec a a); [exact IH|congruence].
Qed.

Lemma data_uri_is_png_base64 (png : list Byte.byte) :
  String.prefix "data:image/png;base64," (data_uri png) = true
  /\ exists payload,
       data_uri png = ("data:image/png;base64," ++ payload)%string
       /\ base64.b64decode (list_ascii_of_string payload) = Some png
       /\ base64.is_valid (list_ascii_of_string payload) = true.
Proof.
  split; [apply prefix_append|].
  exists (string_of_list_ascii (base64.b64encode png)).
  split; [reflexivity|].
  unfold base64.is_valid.
  rewrite list_ascii_of_string_of_list_ascii, b64decode_b64encode.
  split; reflexivity.
Qed.

(** C10.  Whatever the renderer, the session and the driver, a string
    returned by [create_figure], [create_scatterplot] or
    [create_speed_graph] begins with [data:image/png;base64,] and
    continues with valid base64 text (which decodes to the rendered
    bytes). *)
Theorem figures_return_png_data_uri
    (savefig : Figure -> list Byte.byte) (session : Session)
    (driver : string) (s : string) :
  create_figure savefig session driver = Returned s
  \/ create_scatterplot savefig session driver = Returned s
  \/ create_speed_graph savefig session driver = Returned s ->
  String.prefix "data:image/png;base64," s = true
  /\ exists payload,
       s = ("data:image/png;base64," ++ payload)%string
       /\ base64.is_valid (list_ascii_of_string payload) = true.
Proof.
  assert (Huri : forall png,
             String.prefix "data:image/png;base64," (data_uri png) = true
             /\ exists payload,
                  data_uri png = ("data:image/png;base64," ++ payload)%string
                  /\ base64.is_valid (list_ascii_of_string payload) = true).
  { intros png. destruct (data_uri_is_png_base64 png) as [Hp (q & E & _ & V)].
    split; [exact Hp|]. now exists q. }
  unfold create_figure, create_scatterplot, create_speed_graph.
  intros [H|[H|H]].
  - destruct (gear_plot session driver) as [p|e]; [|discriminate].
    cbn [bind] in H.
    destruct (mpl.segment_colors (lc_comp p)) as [colors|e];
      [|discriminate].
    cbn [bind] in H. injection H as <-. apply Huri.
  - destruct (scatter_plot session driver) as [p|e]; [|discriminate].
    cbn [bind] in H. injection H as <-. apply Huri.
  - destruct (speed_plot session driver) as [p|e]; [|discriminate].
    cbn [bind] in H.
    destruct (mpl.segment_colors (lc p)) as [colors|e]; [|discriminate].
    cbn [bind] in H. injection H as <-. apply Huri.
Qed.

Lemma figures_return_png_data_uri_demo :
  String.prefix "data:image/png;base64,"
    "data:image/png;base64,iVBORw0KGgo=" = true
  /\ exists payload,
       "data:image/png;base64,iVBORw0KGgo="
       = ("data:image/png;base64," ++ payload)%string
       /\ base64.is_valid (list_ascii_of_string payload) = true.
Proof.
  apply (figures_return_png_data_uri Demo.png_signature
           (Demo.session Demo.three_samples Demo.three_laps) "VER").
  left. reflexivity.
Defined.

(** All three builders do return on the sample session. *)
Lemma figures_return_on_demo :
  create_figure Demo.png_signature
    (Demo.session Demo.three_samples Demo.three_laps) "VER"
  = Returned "data:image/png;base64,iVBORw0KGgo="
  /\ create_scatterplot Demo.png_signature
       (Demo.session Demo.three_samples Demo.three_laps) "VER"
     = Returned "data:image/png;base64,iVBORw0KGgo="
  /\ create_speed_graph Demo.png_signature
       (Demo.session Demo.three_samples Demo.three_laps) "VER"
     = Returned "data:image/png;base64,iVBORw0KGgo=".
Proof. repeat split. Qed.

(* ================================================================= *)
(** * Further properties of [app.py] *)

(** ** The order of binary64 values *)

Lemma SFleb_refl (a : spec_float) :
  SFeqb a a = true -> SFleb a a = true.
Proof.
  unfold SFeqb, SFleb. destruct (SFcompare a a) as [[]|]; simpl; congruence.
Qed.

Lemma SFleb_total (a b : spec_float) :
  SFeqb a a = true -> SFeqb b b = true ->
  SFleb a b = false -> SFleb b a = true.
Proof.
  unfold SFeqb, SFleb.
  destruct a as [[]|[]| |[] ma ea], b as [[]|[]| |[] mb eb]; simpl;
    try discriminate; try reflexivity; intros _ _; sf_cases.
Qed.

Lemma SFleb_trans (a b c : spec_float) :
  SFleb a b = true -> SFleb b c = true -> SFleb a c = true.
Proof.
  unfold SFleb.
  destruct a as [[]|[]| |[] ma ea], b as [[]|[]| |[] mb eb],
           c as [[]|[]| |[] mc ec]; simpl;
    try discriminate; try reflexivity; sf_cases.
Qed.

Lemma SFleb_not_ltb (a b : spec_float) :
  SFleb a b = true -> SFltb b a = false.
Proof.
  unfold SFleb, SFltb.
  destruct a as [[]|[]| |[] ma ea], b as [[]|[]| |[] mb eb]; simpl;
    try discriminate; try reflexivity; sf_cases.
Qed.

Lemma leb_refl (a : float) :
  PrimFloat.eqb a a = true -> PrimFloat.leb a a = true.
Proof. rewrite FloatAxioms.eqb_spec, leb_spec. apply SFleb_refl. Qed.

Lemma leb_total (a b : float) :
  PrimFloat.eqb a a = true -> PrimFloat.eqb b b = true ->
  PrimFloat.leb a b = false -> PrimFloat.leb b a = true.
Proof. rewrite !FloatAxioms.eqb_spec, !leb_spec. apply SFleb_total. Qed.

Lemma leb_trans (a b c : float) :
  PrimFloat.leb a b = true -> PrimFloat.leb b c = true ->
  PrimFloat.leb a c = true.
Proof. rewrite !leb_spec. apply SFleb_trans. Qed.

Lemma leb_not_ltb (a b : float) :
  PrimFloat.leb a b = true -> PrimFloat.ltb b a = false.
Proof. rewrite leb_spec, ltb_spec. apply SFleb_not_ltb. Qed.

(** ** [min()] and [max()] bracket the series *)

Lemma fold_minimum_lower (rest : list float) :
  forall acc,
    PrimFloat.eqb acc acc = true ->
    (forall v, In v rest -> PrimFloat.eqb v v = true) ->
    PrimFloat.leb (fold_left pd.minimum rest acc) acc = true
    /\ forall v, In v rest ->
                 PrimFloat.leb (fold_left pd.minimum rest acc) v = true.
Proof.
  induction rest as [|b rest IH]; intros acc Hacc Hrest; simpl.
  - split; [now apply leb_refl|intros v []].
  - assert (Hb : PrimFloat.eqb b b = true) by (apply Hrest; now left).
    assert (Hm : PrimFloat.eqb (pd.minimum acc b) (pd.minimum acc b) = true
                 /\ PrimFloat.leb (pd.minimum acc b) acc = true
                 /\ PrimFloat.leb (pd.minimum acc b) b = true).
    { unfold pd.minimum. rewrite (not_nan_of_eqb acc Hacc), orb_false_r.
      destruct (PrimFloat.leb acc b) eqn:E.
      - repeat split; [exact Hacc|now apply leb_refl|exact E].
      - repeat split; [exact Hb|now apply leb_total|now apply leb_refl]. }
    destruct Hm as (Hnum & Hle1 & Hle2).
    destruct (IH (pd.minimum acc b) Hnum) as [H1 H2].
    { intros v Hv. apply Hrest. now right. }
    split; [eapply leb_trans; eauto|].
    intros v [<-|Hv]; [eapply leb_trans; eauto|now apply H2].
Qed.

Lemma fold_maximum_upper (rest : list float) :
  forall acc,
    PrimFloat.eqb acc acc = true ->
    (forall v, In v rest -> PrimFloat.eqb v v = true) ->
    PrimFloat.leb acc (fold_left pd.maximum rest acc) = true
    /\ forall v, In v rest ->
                 PrimFloat.leb v (fold_left pd.maximum rest acc) = true.
Proof.
  induction rest as [|b rest IH]; intros acc Hacc Hrest; simpl.
  - split; [now apply leb_refl|intros v []].
  - assert (Hb : PrimFloat.eqb b b = true) by (apply Hrest; now left).
    assert (Hm : PrimFloat.eqb (pd.maximum acc b) (pd.maximum acc b) = true
                 /\ PrimFloat.leb acc (pd.maximum acc b) = true
                 /\ PrimFloat.leb b (pd.maximum acc b) = true).
    { unfold pd.maximum. rewrite (not_nan_of_eqb acc Hacc), orb_false_r.
      destruct (PrimFloat.leb b acc) eqn:E.
      - repeat split; [exact Hacc|now apply leb_refl|exact E].
      - repeat split; [exact Hb|now apply leb_total|now apply leb_refl]. }
    destruct Hm as (Hnum & Hle1 & Hle2).
    destruct (IH (pd.maximum acc b) Hnum) as [H1 H2].
    { intros v Hv. apply Hrest. now right. }
    split; [eapply leb_trans; eauto|].
    intros v [<-|Hv]; [eapply leb_trans; eauto|now apply H2].
Qed.

Lemma reduce_minimum_lower (values : list float) (v : float) :
  (forall a, In a values -> PrimFloat.eqb a a = true) ->
  In v values ->
  PrimFloat.leb (pd.reduce pd.minimum values) v = true.
Proof.
  intros Hnum Hv. destruct values as [|a rest]; [destruct Hv|].
  unfold pd.reduce.
  destruct (fold_minimum_lower rest a) as [H1 H2].
  - apply Hnum. now left.
  - intros b Hb. apply Hnum. now right.
  - destruct Hv as [<-|Hv]; auto.
Qed.

Lemma reduce_maximum_upper (values : list float) (v : float) :
  (forall a, In a values -> PrimFloat.eqb a a = true) ->
  In v values ->
  PrimFloat.leb v (pd.reduce pd.maximum values) = true.
Proof.
  intros Hnum Hv. destruct values as [|a rest]; [destruct Hv|].
  unfold pd.reduce.
  destruct (fold_maximum_upper rest a) as [H1 H2].
  - apply Hnum. now left.
  - intros b Hb. apply Hnum. now right.
  - destruct Hv as [<-|Hv]; auto.
Qed.

Lemma filled_is_number (inf : float) (values : list float) :
  PrimFloat.eqb inf inf = true ->
  forall a,
    In a (map (fun v => if PrimFloat.is_nan v then inf else v) values) ->
    PrimFloat.eqb a a = true.
Proof.
  intros Hinf a Ha. apply in_map_iff in Ha. destruct Ha as (v & <- & _).
  unfold PrimFloat.is_nan. destruct (PrimFloat.eqb v v) eqn:E; simpl; auto.
Qed.

Lemma Series_min_max_bracket (values : list float) (v : float) :
  In v values ->
  PrimFloat.eqb v v = true ->
  PrimFloat.leb (pd.Series_min values) v = true
  /\ PrimFloat.leb v (pd.Series_max values) = true.
Proof.
  intros Hv Hnum.
  assert (Hall : forallb PrimFloat.is_nan values = false).
  { destruct (forallb PrimFloat.is_nan values) eqn:E; [|reflexivity].
    rewrite forallb_forall in E. specialize (E v Hv).
    now rewrite (not_nan_of_eqb v Hnum) in E. }
  assert (Hin : forall inf,
             In v (map (fun a => if PrimFloat.is_nan a then inf else a)
                       values)).
  { intros inf. apply in_map_iff. exists v.
    now rewrite (not_nan_of_eqb v Hnum). }
  unfold pd.Series_min, pd.Series_max. rewrite Hall. split.
  - apply reduce_minimum_lower; [|apply Hin].
    now apply filled_is_number.
  - apply reduce_maximum_upper; [|apply Hin].
    now apply filled_is_number.
Qed.

Lemma Series_max_not_below_min (values : list float) :
  PrimFloat.ltb (pd.Series_max values) (pd.Series_min values) = false.
Proof.
  destruct (forallb PrimFloat.is_nan values) eqn:E.
  - unfold pd.Series_min, pd.Series_max. rewrite E. reflexivity.
  - assert (Hex : exists v, In v values /\ PrimFloat.is_nan v = false).
    { clear -E. induction values as [|a rest IH]; [discriminate|].
      simpl in E. destruct (PrimFloat.is_nan a) eqn:Ea.
      - destruct (IH E) as (v & Hv & Hn). exists v. split; [now right|auto].
      - exists a. split; [now left|auto]. }
    destruct Hex as (v & Hv & Hn).
    assert (Hnum : PrimFloat.eqb v v = true).
    { unfold PrimFloat.is_nan in Hn. now apply negb_false_iff in Hn. }
    destruct (Series_min_max_bracket values v Hv Hnum) as [H1 H2].
    apply leb_not_ltb. eapply leb_trans; eauto.
Qed.

(** ** The speed scale brackets the samples *)

(** X1.  The colour scale of the speed graph brackets every valid speed
    of the lap: [vmin <= speed <= vmax] for each sample whose speed is
    not NaN, so the scale is never inverted. *)
Theorem speed_scale_brackets_every_sample
    (session : Session) (driver : string) (lap : Lap) (s : SpeedPlot)
    (r : TelemetryRow) :
  pick_fastest session driver = Returned lap ->
  speed_plot session driver = Returned s ->
  In r (telemetry lap) ->
  PrimFloat.eqb (Speed r) (Speed r) = true ->
  PrimFloat.leb (mpl.vmin (mpl.norm (lc s))) (Speed r) = true
  /\ PrimFloat.leb (Speed r) (mpl.vmax (mpl.norm (lc s))) = true
  /\ PrimFloat.leb (mpl.vmin (mpl.norm (lc s)))
                   (mpl.vmax (mpl.norm (lc s))) = true.
Proof.
  intros Hlap Hs Hr Hnum. unfold speed_plot in Hs. rewrite Hlap in Hs.
  cbn [bind] in Hs.
  destruct (make_segments _ _) as [segs|e]; [|discriminate].
  cbn [bind] in Hs. injection Hs as <-.
  cbn [lc mpl.norm mpl.vmin mpl.vmax].
  destruct (Series_min_max_bracket (map Speed (telemetry lap)) (Speed r))
    as [H1 H2]; [now apply in_map|exact Hnum|].
  repeat split; [exact H1|exact H2|eapply leb_trans; eauto].
Qed.

Lemma speed_scale_brackets_every_sample_demo :
  exists s,
    speed_plot (Demo.session Demo.three_samples []) "VER" = Returned s
    /\ PrimFloat.leb (mpl.vmin (mpl.norm (lc s))) 250%float = true
    /\ PrimFloat.leb 250%float (mpl.vmax (mpl.norm (lc s))) = true.
Proof.
  eexists. split; [reflexivity|].
  destruct (speed_scale_brackets_every_sample
              (Demo.session Demo.three_samples []) "VER"
              {| Driver := "VER"; telemetry := Demo.three_samples |} _
              (Demo.row 1.5 2 3 250) eq_refl eq_refl)
    as (H1 & H2 & _).
  - right. left. reflexivity.
  - reflexivity.
  - split; [exact H1|exact H2].
Defined.

(** ** The path builders fail only with the loader *)

Lemma gear_colors_Returned (segs : list (list (list float)))
    (gear : list float) :
  exists colors,
    mpl.segment_colors
      {| mpl.segments := segs;
         mpl.norm := {| mpl.vmin := f64.of_Z 1; mpl.vmax := f64.of_Z 13 |};
         mpl.cmap := mpl.Paired;
         mpl.array := gear;
         mpl.linewidth := 4%float |}
    = Returned colors.
Proof.
  destruct (to_rgba_masked_items
              {| mpl.vmin := f64.of_Z 1; mpl.vmax := f64.of_Z 13 |}
              mpl.Paired gear
              (map (fun v => PrimFloat.div (PrimFloat.sub v (f64.of_Z 1))
                               (PrimFloat.sub (f64.of_Z 13) (f64.of_Z 1)))
                   gear) eq_refl) as (colors & Hc & _).
  unfold mpl.segment_colors.
  cbn [mpl.norm mpl.cmap mpl.array mpl.segments].
  rewrite Hc. cbn [bind]. eexists. reflexivity.
Qed.

Lemma speed_colors_Returned (segs : list (list (list float)))
    (color : list float) (width : float) :
  exists colors,
    mpl.segment_colors
      {| mpl.segments := segs;
         mpl.norm := {| mpl.vmin := pd.Series_min color;
                        mpl.vmax := pd.Series_max color |};
         mpl.cmap := mpl.plasma;
         mpl.array := color;
         mpl.linewidth := width |}
    = Returned colors.
Proof.
  assert (Hnorm : exists data,
             mpl.Normalize_call {| mpl.vmin := pd.Series_min color;
                                   mpl.vmax := pd.Series_max color |} color
             = Returned data).
  { unfold mpl.Normalize_call. cbn [mpl.vmin mpl.vmax].
    rewrite Series_max_not_below_min.
    destruct (PrimFloat.eqb _ _); eexists; reflexivity. }
  destruct Hnorm as [data Hnorm].
  destruct (to_rgba_masked_items _ mpl.plasma _ _ Hnorm) as (colors & Hc & _).
  unfold mpl.segment_colors.
  cbn [mpl.norm mpl.cmap mpl.array mpl.segments].
  rewrite Hc. cbn [bind]. eexists. reflexivity.
Qed.

(** X2.  [create_figure] and [create_speed_graph] fail only when the
    session cannot deliver the driver's fastest lap, and then with the
    loader's own error; for every lap it delivers, whatever its
    telemetry (no sample, NaN, constant channels), both return a
    string. *)
Theorem path_builders_fail_only_with_the_loader
    (savefig : Figure -> list Byte.byte) (session : Session)
    (driver : string) :
  match pick_fastest session driver with
  | Raised e =>
      create_figure savefig session driver = Raised e
      /\ create_speed_graph savefig session driver = Raised e
  | Returned lap =>
      exists image speed_graph,
        create_figure savefig session driver = Returned image
        /\ create_speed_graph savefig session driver = Returned speed_graph
  end.
Proof.
  unfold create_figure, create_speed_graph, gear_plot, speed_plot.
  destruct (pick_fastest session driver) as [lap|e]; [|split; reflexivity].
  cbn [bind].
  destruct (make_segments_telemetry (telemetry lap)) as (segs & -> & _).
  cbn [bind lc_comp lc].
  destruct (gear_colors_Returned segs
              (map (fun r => f64.of_Z (nGear r)) (telemetry lap)))
    as [gc Hgc].
  destruct (speed_colors_Returned segs (map Speed (telemetry lap)) 5%float)
    as [sc Hsc].
  cbn [mpl.N mpl.Paired Z.add Pos.add Pos.succ] in *.
  rewrite Hgc, Hsc. cbn [bind]. eexists; eexists. split; reflexivity.
Qed.

(** ** Each gear has its own colour *)

Lemma gear_color (g : Z) :
  (1 <= g <= 12)%Z ->
  mpl.Colormap_call mpl.Paired
    (PrimFloat.div (PrimFloat.sub (f64.of_Z g) (f64.of_Z 1))
                   (PrimFloat.sub (f64.of_Z 13) (f64.of_Z 1)))
  = mpl.entry (g - 1).
Proof.
  intros Hg.
  assert (H : In g (np.arange_int 1 13)).
  { unfold np.arange_int. apply in_map_iff.
    exists (Z.to_nat (g - 1)). split; [lia|]. apply in_seq. lia. }
  vm_compute in H.
  repeat (destruct H as [<-|H]; [vm_compute; reflexivity|]).
  destruct H.
Qed.

Lemma gear_finite (g : Z) :
  (1 <= g <= 12)%Z -> PrimFloat.is_finite (f64.of_Z g) = true.
Proof.
  intros Hg.
  assert (H : In g (np.arange_int 1 13)).
  { unfold np.arange_int. apply in_map_iff.
    exists (Z.to_nat (g - 1)). split; [lia|]. apply in_seq. lia. }
  vm_compute in H.
  repeat (destruct H as [<-|H]; [vm_compute; reflexivity|]).
  destruct H.
Qed.

(** X3.  In the gear figure a segment whose leading sample is in gear
    [g], for [g] from 1 to 12, is drawn in palette entry [g - 1]: two
    segments are drawn in the same colour only if their gears are
    equal.  A leading sample in neutral (gear 0) is drawn in the
    colormap's under colour. *)
Theorem gear_segment_takes_entry_of_its_gear
    (session : Session) (driver : string) (lap : Lap) (g : GearPlot)
    (i : nat) (r : TelemetryRow) :
  pick_fastest session driver = Returned lap ->
  gear_plot session driver = Returned g ->
  nth_error (telemetry lap) i = Some r ->
  S i < List.length (telemetry lap) ->
  exists colors,
    mpl.segment_colors (lc_comp g) = Returned colors
    /\ ((1 <= nGear r <= 12)%Z ->
        nth_error colors i = Some (Some (mpl.entry (nGear r - 1))))
    /\ (nGear r = 0%Z -> nth_error colors i = Some (Some mpl.under)).
Proof.
  intros Hlap Hg Hr Hi. unfold gear_plot in Hg. rewrite Hlap in Hg.
  cbn [bind] in Hg.
  destruct (make_segments_telemetry (telemetry lap))
    as (segs & Hsegs & Hlen & _).
  rewrite Hsegs in Hg. cbn [bind] in Hg. injection Hg as <-.
  cbn [lc_comp]. unfold mpl.segment_colors.
  cbn [mpl.norm mpl.cmap mpl.array mpl.segments
       mpl.N mpl.Paired Z.add Pos.add Pos.succ].
  set (gear := map (fun r => f64.of_Z (nGear r)) (telemetry lap)).
  set (normalized := fun v => PrimFloat.div (PrimFloat.sub v (f64.of_Z 1))
                                (PrimFloat.sub (f64.of_Z 13) (f64.of_Z 1))).
  destruct (to_rgba_masked_items
              {| mpl.vmin := f64.of_Z 1; mpl.vmax := f64.of_Z 13 |}
              {| mpl.name := "Paired"; mpl.N := 12 |}
              gear (map normalized gear) eq_refl)
    as (colors & Hc & Hlenc & Hitem).
  match goal with
  | |- context [mpl.to_rgba_masked ?n ?c ?a] =>
      change (mpl.to_rgba_masked n c a)
        with (mpl.to_rgba_masked
                {| mpl.vmin := f64.of_Z 1; mpl.vmax := f64.of_Z 13 |}
                {| mpl.name := "Paired"; mpl.N := 12 |}
                (mpl.safe_masked_invalid gear))
  end.
  rewrite Hc. cbn [bind]. eexists. split; [reflexivity|].
  assert (Hgear : nth_error gear i = Some (f64.of_Z (nGear r)))
    by (unfold gear; now rewrite nth_error_map, Hr).
  assert (Hnth : forall c,
             PrimFloat.is_finite (f64.of_Z (nGear r)) = true ->
             mpl.Colormap_call mpl.Paired (normalized (f64.of_Z (nGear r)))
             = c ->
             c <> mpl.bad ->
             nth_error (mpl.cycled colors (List.length segs)) i
             = Some (Some c)).
  { intros c Hfin Hcall Hnb.
    rewrite nth_error_cycled
      by (rewrite ?Hlenc; unfold gear; rewrite ?length_map; lia).
    f_equal.
    rewrite (Hitem i _ (normalized (f64.of_Z (nGear r))) Hgear)
      by now rewrite nth_error_map, Hgear.
    f_equal. rewrite Hfin. cbn [negb].
    destruct (mpl.is_masked (mpl.safe_masked_invalid gear));
      [|exact Hcall].
    destruct (Colormap_call_item_unmasked
                {| mpl.name := "Paired"; mpl.N := 12 |}
                (normalized (f64.of_Z (nGear r)))) as [E|E].
    - exfalso. apply Hnb. rewrite <- Hcall. exact E.
    - rewrite E. exact Hcall. }
  split.
  - intros Hrange. apply Hnth.
    + now apply gear_finite; lia.
    + now apply gear_color.
    + discriminate.
  - intros Hzero. rewrite Hzero in Hnth.
    apply Hnth; [reflexivity|vm_compute; reflexivity|discriminate].
Qed.

Lemma gear_segment_takes_entry_of_its_gear_demo :
  exists colors,
    bind (gear_plot (Demo.session Demo.three_samples []) "VER")
         (fun g => mpl.segment_colors (lc_comp g))
    = Returned colors
    /\ nth_error colors 1 = Some (Some (mpl.entry 2)).
Proof.
  destruct (gear_segment_takes_entry_of_its_gear
              (Demo.session Demo.three_samples []) "VER"
              {| Driver := "VER"; telemetry := Demo.three_samples |} _
              1 (Demo.row 1.5 2 3 250) eq_refl eq_refl eq_refl
              (le_n 3))
    as (colors & Hc & Hrange & _).
  exists colors. split; [exact Hc|].
  apply Hrange. simpl. lia.
Defined.

(** ** The segments form one chain *)

(** X4.  The segments of the gear figure form one connected chain
    along the lap: every segment, also the only one of a two-sample
    lap, has exactly two points of two coordinates each, and each
    segment starts at the point where the previous one ends. *)
Theorem consecutive_segments_share_their_endpoint
    (session : Session) (driver : string) (g : GearPlot) :
  gear_plot session driver = Returned g ->
  (forall i a,
     nth_error (mpl.segments (lc_comp g)) i = Some a ->
     exists x0 y0 x1 y1, a = [[x0; y0]; [x1; y1]])
  /\ (forall i a b,
        nth_error (mpl.segments (lc_comp g)) i = Some a ->
        nth_error (mpl.segments (lc_comp g)) (S i) = Some b ->
        exists p q q', a = [p; q] /\ b = [q; q']).
Proof.
  intros Hg. unfold gear_plot in Hg.
  destruct (pick_fastest session driver) as [lap|e]; [|discriminate].
  cbn [bind] in Hg.
  destruct (make_segments_telemetry (telemetry lap))
    as (segs & Hsegs & Hlen & Hnth).
  rewrite Hsegs in Hg. cbn [bind] in Hg. injection Hg as <-.
  cbn [lc_comp mpl.segments].
  assert (Hrow : forall i, i < List.length segs ->
             exists r r',
               nth_error (telemetry lap) i = Some r
               /\ nth_error (telemetry lap) (S i) = Some r').
  { intros i Hi.
    destruct (nth_error (telemetry lap) i) as [r|] eqn:E;
      [|apply nth_error_None in E; lia].
    destruct (nth_error (telemetry lap) (S i)) as [r'|] eqn:E';
      [|apply nth_error_None in E'; lia].
    eauto. }
  split.
  - intros i a Ha.
    assert (Hi : i < List.length segs) by (apply nth_error_Some; congruence).
    destruct (Hrow i Hi) as (r & r' & E & E').
    rewrite (Hnth i r r' E E') in Ha. injection Ha as <-.
    repeat eexists.
  - intros i a b Ha Hb.
    assert (Hi : S i < List.length segs)
      by (apply nth_error_Some; congruence).
    destruct (Hrow i (Nat.lt_succ_l _ _ Hi)) as (r0 & r1 & E0 & E1).
    destruct (Hrow (S i) Hi) as (r1' & r2 & E1' & E2).
    rewrite E1 in E1'. injection E1' as <-.
    rewrite (Hnth i r0 r1 E0 E1) in Ha.
    rewrite (Hnth (S i) r1 r2 E1 E2) in Hb.
    injection Ha as <-. injection Hb as <-.
    eexists; eexists; eexists. split; reflexivity.
Qed.

Lemma consecutive_segments_share_their_endpoint_demo :
  (exists x0 y0 x1 y1, [[0; 0]; [1.5; 2]]%float = [[x0; y0]; [x1; y1]])
  /\ exists p q q',
       [[0; 0]; [1.5; 2]]%float = [p; q]
       /\ [[1.5; 2]; [4; 2.5]]%float = [q; q'].
Proof.
  destruct (consecutive_segments_share_their_endpoint
              (Demo.session Demo.three_samples []) "VER" _ eq_refl)
    as [Htwo Hchain].
  split.
  - apply (Htwo 0). reflexivity.
  - apply (Hchain 0); reflexivity.
Defined.

(** ** The scatter plot: markers, legend and colours *)

Lemma scatter_plot_collection (race : Session) (driver : string)
    (laps : list LapRow) (p : ScatterPlot) :
  pick_quicklaps race driver = Returned laps ->
  scatter_plot race driver = Returned p ->
  sns.collection (ax p)
    = map (fun r => {| sns.x := LapNumber r; sns.y := LapTime r;
                       sns.hue := Compound r;
                       sns.facecolor :=
                         sns.lookup_single COMPOUND_COLORS (Compound r) |})
          laps
  /\ sns.legend (ax p)
     = map (fun l => (l, sns.lookup_single COMPOUND_COLORS l))
           (pd.unique (map Compound laps))
  /\ forall r, In r laps ->
               sns.truthy (Compound r) = true ->
               sns.dict_has COMPOUND_COLORS (Compound r) = true.
Proof.
  intros Hlaps. unfold scatter_plot. rewrite Hlaps. cbn [bind].
  destruct (sns.scatterplot _ _) as [axes|e] eqn:E; [|discriminate].
  cbn [bind]. intros [= <-]. cbn [ax].
  pose proof (scatterplot_Returned _ _ _ E) as [Hc Hl].
  split; [|split].
  - rewrite Hc, map_map. reflexivity.
  - rewrite Hl, map_map. reflexivity.
  - intros r Hr Ht. unfold sns.scatterplot in E.
    destruct (existsb sns.truthy _) eqn:Ex in E; [discriminate|].
    destruct (sns.dict_has COMPOUND_COLORS (Compound r)) eqn:Eh;
      [reflexivity|].
    assert (Hex : existsb sns.truthy
                    (filter (fun l => negb (sns.dict_has COMPOUND_COLORS l))
                       (sns.categorical_order
                          (map snd
                             (map (fun r => (LapNumber r, LapTime r,
                                             Compound r)) laps))))
                  = true).
    { apply existsb_exists. exists (Compound r). split; [|exact Ht].
      apply filter_In. split; [|now rewrite Eh].
      apply unique_from_In. split; [|tauto].
      rewrite map_map. cbn [snd]. now apply (in_map Compound). }
    congruence.
Qed.

(** X5.  Whenever the scatter plot is built, it holds one marker per
    lap, in lap order, at (LapNumber, LapTime), and every marker of a
    legend entry's series has exactly the colour shown in that legend
    entry. *)
Theorem legend_color_is_the_color_of_its_markers
    (race : Session) (driver : string) (laps : list LapRow)
    (p : ScatterPlot) :
  pick_quicklaps race driver = Returned laps ->
  scatter_plot race driver = Returned p ->
  map (fun pt => (sns.x pt, sns.y pt, sns.hue pt)) (sns.collection (ax p))
    = map (fun r => (LapNumber r, LapTime r, Compound r)) laps
  /\ forall label color pt,
       In (label, color) (sns.legend (ax p)) ->
       In pt (sns.series (ax p) label) ->
       sns.facecolor pt = color.
Proof.
  intros Hlaps Hp.
  destruct (scatter_plot_collection _ _ _ _ Hlaps Hp) as (Hc & Hl & _).
  split.
  - rewrite Hc, map_map. reflexivity.
  - intros label color pt Hle Hpt. rewrite Hl in Hle.
    apply in_map_iff in Hle. destruct Hle as (l & [= <- <-] & _).
    unfold sns.series in Hpt. apply filter_In in Hpt.
    destruct Hpt as [Hpt Heq]. apply String.eqb_eq in Heq.
    rewrite Hc in Hpt. apply in_map_iff in Hpt.
    destruct Hpt as (r & <- & _). cbn [sns.hue sns.facecolor] in *.
    now rewrite Heq.
Qed.

Lemma legend_color_is_the_color_of_its_markers_demo :
  exists p,
    scatter_plot (Demo.session [] Demo.three_laps) "VER" = Returned p
    /\ map (fun pt => (sns.x pt, sns.y pt, sns.hue pt))
           (sns.collection (ax p))
       = [ (1, 90100000000, "SOFT"); (2, 89800000000, "SOFT");
           (3, 91000000000, "MEDIUM") ]%Z
    /\ Forall (fun pt => sns.facecolor pt = sns.named "#D32F2F")
              (sns.series (ax p) "SOFT").
Proof.
  eexists. split; [reflexivity|].
  destruct (legend_color_is_the_color_of_its_markers
              (Demo.session [] Demo.three_laps) "VER" Demo.three_laps
              _ eq_refl eq_refl) as [Hm Hleg].
  split; [exact Hm|].
  apply Forall_forall. intros pt Hpt.
  apply (Hleg "SOFT" _ pt); [left; reflexivity|exact Hpt].
Defined.

Lemma COMPOUND_COLORS_injective (c1 c2 v : string) :
  sns.dict_get COMPOUND_COLORS c1 = Some v ->
  sns.dict_get COMPOUND_COLORS c2 = Some v ->
  c1 = c2.
Proof.
  unfold COMPOUND_COLORS. cbn [sns.dict_get].
  repeat match goal with
         | |- context [String.eqb ?k c1] => destruct (String.eqb_spec k c1)
         | |- context [String.eqb ?k c2] => destruct (String.eqb_spec k c2)
         end;
    intros H1 H2; try discriminate; try congruence.
Qed.

(** X6.  Whenever the scatter plot is built, two markers have the same
    colour exactly when their laps are on the same compound: the colours
    of [COMPOUND_COLORS] never merge two compounds, and neither does the
    transparent fallback. *)
Theorem markers_share_color_iff_compound
    (race : Session) (driver : string) (laps : list LapRow)
    (p : ScatterPlot) (pt1 pt2 : sns.point) :
  pick_quicklaps race driver = Returned laps ->
  scatter_plot race driver = Returned p ->
  In pt1 (sns.collection (ax p)) ->
  In pt2 (sns.collection (ax p)) ->
  sns.facecolor pt1 = sns.facecolor pt2 <-> sns.hue pt1 = sns.hue pt2.
Proof.
  intros Hlaps Hp H1 H2.
  destruct (scatter_plot_collection _ _ _ _ Hlaps Hp) as (Hc & _ & Hcov).
  rewrite Hc in H1, H2.
  apply in_map_iff in H1. destruct H1 as (r1 & <- & Hr1).
  apply in_map_iff in H2. destruct H2 as (r2 & <- & Hr2).
  cbn [sns.hue sns.facecolor]. split; [|now intros ->].
  pose proof (Hcov r1 Hr1) as C1. pose proof (Hcov r2 Hr2) as C2.
  unfold sns.lookup_single, sns.dict_has, sns.truthy in *.
  destruct (sns.dict_get COMPOUND_COLORS (Compound r1)) as [v1|] eqn:E1,
           (sns.dict_get COMPOUND_COLORS (Compound r2)) as [v2|] eqn:E2;
    intros Heq; try discriminate.
  - injection Heq as <-. eapply COMPOUND_COLORS_injective; eauto.
  - destruct (String.eqb_spec (Compound r1) "") as [->|];
      [|specialize (C1 eq_refl); discriminate].
    destruct (String.eqb_spec (Compound r2) "") as [->|];
      [reflexivity|specialize (C2 eq_refl); discriminate].
Qed.

Lemma markers_share_color_iff_compound_demo :
  sns.named "#D32F2F" = sns.named "#D32F2F" <-> "SOFT" = "SOFT".
Proof.
  apply (markers_share_color_iff_compound
           (Demo.session [] Demo.three_laps) "VER" Demo.three_laps
           {| ax := {| sns.collection :=
                         map (fun r =>
                                {| sns.x := LapNumber r; sns.y := LapTime r;
                                   sns.hue := Compound r;
                                   sns.facecolor :=
                                     sns.lookup_single COMPOUND_COLORS
                                       (Compound r) |})
                             Demo.three_laps;
                       sns.legend :=
                         [("SOFT", sns.named "#D32F2F");
                          ("MEDIUM", sns.named "#FFB300")] |};
              scatter_title :=
                "VER Lap Times in the 2024 Japan GP (Suzuka)" |}
           {| sns.x := 1; sns.y := 90100000000; sns.hue := "SOFT";
              sns.facecolor := sns.named "#D32F2F" |}
           {| sns.x := 2; sns.y := 89800000000; sns.hue := "SOFT";
              sns.facecolor := sns.named "#D32F2F" |}
           eq_refl eq_refl).
  - left. reflexivity.
  - right. left. reflexivity.
Defined.

(** ** When the scatter plot is returned *)

(** X7.  [create_scatterplot] returns a string exactly when the session
    delivers the driver's quick laps and every compound among them that
    is a non-empty string has a colour in [COMPOUND_COLORS]; an empty
    list of laps is accepted.  A failure of the loader is passed on
    unchanged. *)
Theorem create_scatterplot_returns_iff
    (savefig : Figure -> list Byte.byte) (race : Session)
    (driver : string) :
  (raises (create_scatterplot savefig race driver) = false
   <-> exists laps,
         pick_quicklaps race driver = Returned laps
         /\ forallb (fun r => negb (sns.truthy (Compound r))
                              || sns.dict_has COMPOUND_COLORS (Compound r))
                    laps = true)
  /\ forall e,
       pick_quicklaps race driver = Raised e ->
       create_scatterplot savefig race driver = Raised e.
Proof.
  unfold create_scatterplot. split.
  - split.
    + intros Hret.
      destruct (scatter_plot race driver) as [p|e] eqn:Ep; [|discriminate].
      destruct (pick_quicklaps race driver) as [laps|e] eqn:El;
        [|unfold scatter_plot in Ep; rewrite El in Ep; discriminate].
      exists laps. split; [reflexivity|].
      destruct (scatter_plot_collection _ _ _ _ El Ep) as (_ & _ & Hcov).
      apply forallb_forall. intros r Hr.
      destruct (sns.truthy (Compound r)) eqn:Et; [|reflexivity].
      simpl. now apply Hcov.
    + intros (laps & Hlaps & Hall).
      unfold scatter_plot. rewrite Hlaps. cbn [bind].
      unfold sns.scatterplot.
      assert (E : existsb sns.truthy
                    (filter (fun l => negb (sns.dict_has COMPOUND_COLORS l))
                       (sns.categorical_order
                          (map snd
                             (map (fun r => (LapNumber r, LapTime r,
                                             Compound r)) laps))))
                  = false).
      { destruct (existsb _ _) eqn:Ex; [|reflexivity].
        apply existsb_exists in Ex. destruct Ex as (l & Hl & Ht).
        apply filter_In in Hl. destruct Hl as [Hl Hmiss].
        apply unique_from_In in Hl. destruct Hl as [Hl _].
        rewrite map_map in Hl. cbn [snd] in Hl.
        apply in_map_iff in Hl. destruct Hl as (r & <- & Hr).
        rewrite forallb_forall in Hall. specialize (Hall r Hr).
        rewrite Ht in Hall. simpl in Hall. rewrite Hall in Hmiss.
        discriminate. }
      rewrite E. reflexivity.
  - intros e He. unfold scatter_plot. now rewrite He.
Qed.

(** With no quick lap at all the plot is empty and still returned. *)
Lemma create_scatterplot_returns_iff_demo :
  raises (create_scatterplot Demo.png_signature (Demo.session [] []) "VER")
  = false.
Proof.
  apply (proj1 (create_scatterplot_returns_iff Demo.png_signature
                  (Demo.session [] []) "VER")).
  exists []. split; reflexivity.
Defined.

(** ** The callback *)

(** X8.  [update_figures] is all or nothing.  It returns exactly when
    the session delivers the driver's fastest lap and quick laps and
    every non-empty compound among the quick laps has a colour; then
    its three strings are those of [create_figure],
    [create_speed_graph] and [create_scatterplot], and they reach the
    [src] of [lap-graph], [speed-graph] and [scatter-plot] in this
    order.  Otherwise it raises and no image is updated, even though
    the two path figures could have been drawn. *)
Theorem update_figures_is_all_or_nothing
    (savefig : Figure -> list Byte.byte) (session : Session)
    (driver : string) :
  (raises (update_figures savefig session driver) = false
   <-> raises (pick_fastest session driver) = false
       /\ raises (create_scatterplot savefig session driver) = false)
  /\ (raises (callback savefig session driver)
      = raises (update_figures savefig session driver))
  /\ forall image speed_graph scatterplot,
       update_figures savefig session driver
       = Returned (image, speed_graph, scatterplot) ->
       create_figure savefig session driver = Returned image
       /\ create_speed_graph savefig session driver = Returned speed_graph
       /\ create_scatterplot savefig session driver = Returned scatterplot
       /\ callback savefig session driver
          = Returned [ ("lap-graph", "src", image);
                       ("speed-graph", "src", speed_graph);
                       ("scatter-plot", "src", scatterplot) ].
Proof.
  pose proof (path_builders_fail_only_with_the_loader savefig session driver)
    as Hpath.
  unfold callback, update_figures.
  destruct (pick_fastest session driver) as [lap|e].
  - destruct Hpath as (a & b & -> & ->). cbn [bind raises].
    destruct (create_scatterplot savefig session driver) as [c|e];
      cbn [bind raises].
    + split; [tauto|]. split; [reflexivity|].
      intros image speed_graph scatterplot [= <- <- <-].
      repeat split.
    + split; [split; [discriminate|intros [_ H]; discriminate]|].
      split; [reflexivity|]. discriminate.
  - destruct Hpath as [-> ->]. cbn [bind raises].
    split; [split; [discriminate|intros [H _]; discriminate]|].
    split; [reflexivity|]. discriminate.
Qed.

(** On the sample session all three images are returned. *)
Lemma update_figures_is_all_or_nothing_demo :
  raises (update_figures Demo.png_signature
            (Demo.session Demo.three_samples Demo.three_laps) "VER")
  = false.
Proof.
  apply (proj1 (update_figures_is_all_or_nothing Demo.png_signature
                  (Demo.session Demo.three_samples Demo.three_laps) "VER")).
  split; reflexivity.
Defined.

(** A lap on SUPERSOFT among the quick laps withholds all three
    images. *)
Lemma update_figures_withheld_by_supersoft :
  update_figures Demo.png_signature
    (Demo.session Demo.three_samples Demo.supersoft_laps) "VER"
  = Raised (ValueError (palette_missing_keys ["SUPERSOFT"])).
Proof. reflexivity. Qed.

(** ** The driver drop-down *)

(** X9.  The layout is built exactly when the session has at least one
    lap row; with none, [drivers[0]] raises.  When built, the drop-down
    offers every driver of the laps exactly once, each with its own
    code as label and value, in order of first appearance, and
    preselects the driver of the first lap row. *)
Theorem dropdown_offers_every_driver_once (laps_Driver : list string) :
  match driver_dropdown laps_Driver with
  | LayoutIndexError => laps_Driver = []
  | LayoutBuilt d =>
      NoDup (map snd (dcc.options d))
      /\ (forall driver,
            In driver laps_Driver <-> In (driver, driver) (dcc.options d))
      /\ (forall label value,
            In (label, value) (dcc.options d) -> label = value)
      /\ Some (dcc.value d) = hd_error laps_Driver
      /\ hd_error (dcc.options d) = Some (dcc.value d, dcc.value d)
      /\ (forall i j a b,
            nth_error (map snd (dcc.options d)) i = Some a ->
            nth_error (map snd (dcc.options d)) j = Some b ->
            i < j ->
            first_index a laps_Driver < first_index b laps_Driver)
  end.
Proof.
  unfold driver_dropdown.
  destruct (pd.unique laps_Driver) as [|first rest] eqn:E.
  - destruct laps_Driver as [|d col]; [reflexivity|].
    unfold pd.unique in E. simpl in E. discriminate.
  - cbn [dcc.options dcc.value].
    assert (Hmap : map snd (map (fun driver : string => (driver, driver))
                              (first :: rest)) = pd.unique laps_Driver).
    { rewrite map_map, E. cbn [snd]. now rewrite map_id. }
    rewrite Hmap. unfold pd.unique in *. repeat split.
    + apply unique_from_NoDup.
    + intros H. rewrite <- E. apply in_map_iff. exists driver.
      split; [reflexivity|]. apply unique_from_In. tauto.
    + intros H. apply in_map_iff in H. destruct H as (d & [= <- _] & Hd).
      rewrite <- E in Hd. now apply unique_from_In in Hd.
    + intros label value H. apply in_map_iff in H.
      destruct H as (d & [= <- <-] & _). reflexivity.
    + destruct laps_Driver as [|d col]; [discriminate|].
      simpl in E. now injection E as <- _.
    + apply unique_from_order.
Qed.

(** ** The data URI keeps the image *)

Lemma append_cancel_l (p a b : string) :
  (p ++ a)%string = (p ++ b)%string -> a = b.
Proof.
  induction p as [|c p IH]; simpl; [auto|].
  intros [= H]. auto.
Qed.

Lemma string_of_list_ascii_injective (a b : list ascii) :
  string_of_list_ascii a = string_of_list_ascii b -> a = b.
Proof.
  intros H. apply (f_equal list_ascii_of_string) in H.
  now rewrite !list_ascii_of_string_of_list_ascii in H.
Qed.

(** X10.  The data URI loses nothing of the image: two renderings with
    the same URI are the same bytes. *)
Theorem data_uri_determines_the_image (png1 png2 : list Byte.byte) :
  data_uri png1 = data_uri png2 -> png1 = png2.
Proof.
  unfold data_uri. intros H.
  apply append_cancel_l, string_of_list_ascii_injective in H.
  apply (f_equal base64.b64decode) in H.
  rewrite !b64decode_b64encode in H. now injection H.
Qed.

Lemma data_uri_determines_the_image_demo :
  [Byte.x89; Byte.x50; Byte.x4e; Byte.x47]
  = [Byte.x89; Byte.x50; Byte.x4e; Byte.x47].
Proof.
  apply (data_uri_determines_the_image
           [Byte.x89; Byte.x50; Byte.x4e; Byte.x47]
           [Byte.x89; Byte.x50; Byte.x4e; Byte.x47]).
  reflexivity.
Defined.

Lemma length_b64encode (s : list Byte.byte) :
  List.length (base64.b64encode s) = 4 * ((List.length s + 2) / 3).
Proof.
  induction s as [|a|a b|a b c rest IH] using list_ind3;
    try reflexivity.
  cbn [base64.b64encode List.length]. rewrite IH.
  replace (S (S (S (List.length rest))) + 2)
    with (1 * 3 + (List.length rest + 2)) by lia.
  rewrite Nat.div_add_l by discriminate. lia.
Qed.

Lemma length_string_of_list_ascii (l : list ascii) :
  String.length (string_of_list_ascii l) = List.length l.
Proof. induction l as [|c l IH]; simpl; [reflexivity|now rewrite IH]. Qed.

Lemma length_append (a b : string) :
  String.length (a ++ b)%string = String.length a + String.length b.
Proof. induction a as [|c a IH]; simpl; [reflexivity|now rewrite IH]. Qed.

(** X11.  The data URI of an image of [n] bytes has exactly
    [22 + 4 * ceil(n / 3)] characters: the prefix, then four base64
    digits for every three bytes begun. *)
Theorem data_uri_length (png : list Byte.byte) :
  String.length (data_uri png) = 22 + 4 * ((List.length png + 2) / 3).
Proof.
  unfold data_uri.
  rewrite length_append, length_string_of_list_ascii, length_b64encode.
  reflexivity.
Qed.

(** ** A gap in the speed channel *)

(** X12.  A gap in the speed channel is shown, not hidden: when the
    scale of the speed graph is not degenerate ([vmin] differs from
    [vmax]), a segment whose leading sample has a NaN speed is drawn in
    the colormap's bad colour. *)
Theorem nan_speed_is_drawn_in_the_bad_color
    (session : Session) (driver : string) (lap : Lap) (s : SpeedPlot)
    (i : nat) (r : TelemetryRow) :
  pick_fastest session driver = Returned lap ->
  speed_plot session driver = Returned s ->
  nth_error (telemetry lap) i = Some r ->
  S i < List.length (telemetry lap) ->
  PrimFloat.is_nan (Speed r) = true ->
  PrimFloat.eqb (mpl.vmin (mpl.norm (lc s))) (mpl.vmax (mpl.norm (lc s)))
  = false ->
  exists colors,
    mpl.segment_colors (lc s) = Returned colors
    /\ nth_error colors i = Some (Some mpl.bad).
Proof.
  intros Hlap Hs Hr Hi Hnan Hscale. unfold speed_plot in Hs.
  rewrite Hlap in Hs. cbn [bind] in Hs.
  destruct (make_segments_telemetry (telemetry lap))
    as (segs & Hsegs & Hlen & _).
  rewrite Hsegs in Hs. cbn [bind] in Hs. injection Hs as <-.
  cbn [lc mpl.norm mpl.vmin mpl.vmax] in *.
  unfold mpl.segment_colors.
  cbn [mpl.norm mpl.cmap mpl.array mpl.segments].
  set (color := map Speed (telemetry lap)) in *.
  assert (Hnorm : exists data,
             mpl.Normalize_call {| mpl.vmin := pd.Series_min color;
                                   mpl.vmax := pd.Series_max color |} color
             = Returned data).
  { unfold mpl.Normalize_call. cbn [mpl.vmin mpl.vmax].
    rewrite Hscale, Series_max_not_below_min. eexists. reflexivity. }
  destruct Hnorm as [data Hnorm].
  destruct (to_rgba_masked_items _ mpl.plasma _ _ Hnorm)
    as (colors & Hc & Hlenc & Hitem).
  rewrite Hc. cbn [bind]. eexists. split; [reflexivity|].
  assert (Hv : nth_error color i = Some (Speed r))
    by (unfold color; now rewrite nth_error_map, Hr).
  assert (Hlend : List.length data = List.length color)
    by (eapply length_Normalize_call; eauto).
  assert (Hcol : List.length color = List.length (telemetry lap))
    by (unfold color; apply length_map).
  destruct (nth_error data i) as [x|] eqn:Ex;
    [|apply nth_error_None in Ex; lia].
  rewrite nth_error_cycled by lia. f_equal.
  rewrite (Hitem i (Speed r) x Hv Ex). f_equal.
  assert (Hfin : PrimFloat.is_finite (Speed r) = false).
  { unfold PrimFloat.is_finite. now rewrite Hnan. }
  assert (Hmasked : mpl.is_masked (mpl.safe_masked_invalid color) = true).
  { unfold mpl.is_masked, mpl.safe_masked_invalid.
    apply existsb_exists. exists (Speed r, true). split; [|reflexivity].
    apply in_map_iff. exists (Speed r). rewrite Hfin.
    split; [reflexivity|]. eapply nth_error_In; eauto. }
  rewrite Hmasked, Hfin. reflexivity.
Qed.

Lemma nan_speed_is_drawn_in_the_bad_color_demo :
  exists colors,
    bind (speed_plot (Demo.session Demo.speed_gap []) "VER")
         (fun s => mpl.segment_colors (lc s))
    = Returned colors
    /\ nth_error colors 1 = Some (Some mpl.bad).
Proof.
  destruct (nan_speed_is_drawn_in_the_bad_color
              (Demo.session Demo.speed_gap []) "VER"
              {| Driver := "VER"; telemetry := Demo.speed_gap |} _
              1 (Demo.row 1.5 2 3 PrimFloat.nan)
              eq_refl eq_refl eq_refl (le_n 3) eq_refl eq_refl)
    as (colors & Hc & Hn).
  exists colors. split; [exact Hc|exact Hn].
Defined.
